(** * onlock: the one-time secret "wrapper" service

    A shallow embedding of [runtime/wrapper/app.py] (the two Chalice handlers
    [v1_wrapper_post] and [v1_wrapper_get], the pydantic models they validate
    with, and [random_id]) together with the properties of the service that
    follow from that code.

    Conventions of the embedding.
    - A Python [str] is a [string]; the characters of the regular expression
      class [[a-zA-Z0-9]] are ASCII, so a UTF-8 encoded non-ASCII character is
      outside the class byte by byte, exactly as the character itself is.
    - A Python [int] is a [Z].
    - A Python exception is a value of [exn]; code that may raise returns a
      [result]; a handler is a function of the backend state returning a
      [result] and the new state.
    - pydantic is the 1.x series the code is written for ([pydantic.validator],
      [ValidationError.json]): a [str] field accepts and stringifies numbers,
      an [int] field accepts what [int(v)] accepts.
    - Log output is not modelled. *)

From Stdlib Require Import ZArith List String Ascii Lia Bool.
From stdpp Require Import gmap strings list.

Open Scope Z_scope.

(** ** Python built-ins used by the application *)

Module Py.

Definition code (c : ascii) : Z := Z.of_N (N_of_ascii c).

Definition in_range (lo hi c : ascii) : bool :=
  (code lo <=? code c) && (code c <=? code hi).

Definition is_digit (c : ascii) : bool := in_range "0" "9" c.

(** Membership in the character class [[a-zA-Z0-9]]. *)
Definition is_alnum (c : ascii) : bool :=
  in_range "a" "z" c || in_range "A" "Z" c || in_range "0" "9" c.

(** [str.isspace] on ASCII: TAB, LF, VT, FF, CR, FS, GS, RS, US and space. *)
Definition is_space (c : ascii) : bool :=
  in_range "009" "013" c || in_range "028" "032" c.

Definition digit_of (c : ascii) : option Z :=
  if is_digit c then Some (code c - code "0") else None.

(** *** [int(s)] for a [str] argument, base 10

    Leading and trailing white space is skipped, a sign may precede the
    digits, and single underscores may separate digits.  [None] stands for
    [ValueError: invalid literal for int() with base 10].  Digits and white
    space outside ASCII, which [int] takes as well, are not recognised here,
    and there is no limit on the length of a literal. *)

Fixpoint lstrip (s : list ascii) : list ascii :=
  match s with
  | c :: s' => if is_space c then lstrip s' else s
  | [] => []
  end.

(** The rest of a literal, after a digit has been read. *)
Fixpoint int_rest (acc : Z) (s : list ascii) : option Z :=
  match s with
  | [] => Some acc
  | c :: s' =>
      if is_space c then
        if forallb is_space s' then Some acc else None
      else if Ascii.eqb c "_" then
        match s' with
        | d :: s'' =>
            match digit_of d with
            | Some v => int_rest (acc * 10 + v) s''
            | None => None
            end
        | [] => None
        end
      else
        match digit_of c with
        | Some v => int_rest (acc * 10 + v) s'
        | None => None
        end
  end.

Definition int_unsigned (s : list ascii) : option Z :=
  match s with
  | d :: s' =>
      match digit_of d with
      | Some v => int_rest v s'
      | None => None
      end
  | [] => None
  end.

Definition int_of_chars (s : list ascii) : option Z :=
  match lstrip s with
  | c :: r =>
      if Ascii.eqb c "+" then int_unsigned r
      else if Ascii.eqb c "-" then Z.opp <$> int_unsigned r
      else int_unsigned (c :: r)
  | [] => None
  end.

Definition int (s : string) : option Z :=
  int_of_chars (list_ascii_of_string s).

(** *** Positional rendering of integers ([str(n)], ['%x' % n]) *)

Definition digit_char (v : Z) : ascii :=
  nth (Z.to_nat v) (list_ascii_of_string "0123456789abcdef") "0"%char.

(** Digits of [n >= 0] in base [b], most significant first, put in front
    of [acc]; [fuel] bounds the number of digits. *)
Fixpoint digits_onto (b : Z) (fuel : nat) (n : Z) (acc : list ascii)
  : list ascii :=
  match fuel with
  | O => acc
  | S fuel' =>
      let acc' := digit_char (n mod b) :: acc in
      if n <? b then acc' else digits_onto b fuel' (n / b) acc'
  end.

Definition digits (b : Z) (n : Z) : list ascii :=
  digits_onto b (S (Z.to_nat (Z.log2 n))) n [].

(** [str(n)] for an [int]. *)
Definition str_chars (n : Z) : list ascii :=
  if n <? 0 then "-"%char :: digits 10 (- n) else digits 10 n.

Definition str (n : Z) : string := string_of_list_ascii (str_chars n).

(** ['%032x' % n] for [n >= 0]: lower-case hexadecimal, padded on the left
    with zeros to at least 32 characters. *)
Definition format_032x (n : Z) : list ascii :=
  let h := digits 16 n in
  repeat "0"%char (32 - length h)%nat ++ h.

(** The value of a digit character, and the number a row of digits
    denotes in base [b], continuing from [acc]. *)
Definition digit_value (c : ascii) : Z := code c - code "0".

Definition number (b : Z) (ds : list ascii) (acc : Z) : Z :=
  fold_left (λ a c, a * b + digit_value c) ds acc.

Definition decimal_char (c : ascii) : Prop :=
  ∃ v, 0 ≤ v < 10 ∧ c = digit_char v.

Definition hex_char (c : ascii) : Prop :=
  ∃ v, 0 ≤ v < 16 ∧ c = digit_char v.

(** [s.replace(old, new)] for a one-character [old] and an empty [new]. *)
Definition remove_char (old : ascii) (s : list ascii) : list ascii :=
  filter (λ c, c ≠ old) s.

(** [s[i:j]] for [0 <= i <= j]. *)
Definition slice (i j : nat) (s : list ascii) : list ascii :=
  take (j - i) (drop i s).

End Py.

(** ** Exceptions and results *)

(** pydantic's description of one failed field, as [ValidationError.errors]
    lists them. *)
Module Pydantic.

(** The message of a [ValueError] raised inside a validator. *)
Inductive value_error_msg :=
| Message (msg : string)
| InvalidLiteralForInt (v : string).

Inductive error :=
| MissingError              (* field required *)
| NoneIsNotAllowedError     (* none is not an allowed value *)
| StrError                  (* str type expected *)
| IntegerError              (* value is not a valid integer *)
| ValueError (m : value_error_msg).

Record ErrorDetail := { loc : string; err : error }.

Inductive checked (A : Type) :=
| Valid (a : A)
| Invalid (e : error).
Arguments Valid {A} a.
Arguments Invalid {A} e.

End Pydantic.

Inductive exn :=
| ValidationError (errors : list Pydantic.ErrorDetail)
| TypeError
| KeyError (key : string)
| OverflowError
| BadRequestError
| ParamValidationError
| ClientError (code : string).

Inductive result (A : Type) :=
| Return (a : A)
| Raise (e : exn).
Arguments Return {A} a.
Arguments Raise {A} e.

Definition result_bind {A B} (r : result A) (k : A → result B) : result B :=
  match r with
  | Return a => k a
  | Raise e => Raise e
  end.

(** ** JSON documents, as [json.loads] and Chalice hand them to the code *)

#[warnings="-register-all"]
Inductive json :=
| JNull
| JBool (b : bool)
| JInt (n : Z)
| JFloat (repr : string)   (* a float, by its [str]: never an int literal *)
| JStr (s : string)
| JList (l : list json)
| JDict (d : list (string * json)).

Definition dict (V : Type) := list (string * V).

Fixpoint dict_get {V} (d : dict V) (k : string) : option V :=
  match d with
  | (k', v) :: d' => if String.eqb k' k then Some v else dict_get d' k
  | [] => None
  end.

(** [d[k]] *)
Definition subscript {V} (d : dict V) (k : string) : result V :=
  match dict_get d k with
  | Some v => Return v
  | None => Raise (KeyError k)
  end.

(** The dict display that unpacks [d] and then sets [k: v]. *)
Fixpoint dict_set {V} (d : dict V) (k : string) (v : V) : dict V :=
  match d with
  | (k', v') :: d' =>
      if String.eqb k' k then (k', v) :: d' else (k', v') :: dict_set d' k v
  | [] => [(k, v)]
  end.

(** [j[k]] on a parsed JSON document. *)
Definition json_subscript (j : json) (k : string) : result json :=
  match j with
  | JDict d => subscript d k
  | _ => Raise TypeError
  end.

(** The keyword arguments a parsed document unpacks to in a call with
    the double-star syntax. *)
Definition kwargs (j : json) : result (dict json) :=
  match j with
  | JDict d => Return d
  | _ => Raise TypeError
  end.

(** ** The pydantic models of the application *)

Module Models.
Import Pydantic.

(** pydantic's validator of a [str] field: a string is taken as it is, a
    number is stringified, anything else is refused. *)
Definition str_validator (v : json) : checked string :=
  match v with
  | JStr s => Valid s
  | JInt n => Valid (Py.str n)
  | JBool b => Valid (if b then "True" else "False")%string
  | JFloat repr => Valid repr
  | JNull => Invalid NoneIsNotAllowedError
  | JList _ | JDict _ => Invalid StrError
  end.

(** pydantic's validator of an [int] field, on a [str] argument. *)
Definition int_validator (v : string) : checked Z :=
  match Py.int v with
  | Some n => Valid n
  | None => Invalid IntegerError
  end.

(** [re.search('[^a-zA-Z0-9]+', v)] finds a match. *)
Definition re_search_non_alnum (v : string) : bool :=
  existsb (λ c, negb (Py.is_alnum c)) (list_ascii_of_string v).

(** [WrapperTtl.validate_value] *)
Definition validate_value (v : string) : checked string :=
  match Py.int v with
  | None => Invalid (ValueError (InvalidLiteralForInt v))
  | Some n =>
      if n <? 30
      then Invalid (ValueError (Message "must be greater than 30 seconds"))
      else Valid v
  end.

(** [WrapperId.validate_id] *)
Definition validate_id (v : string) : checked string :=
  if re_search_non_alnum v
  then Invalid (ValueError (Message "id contains invalid characters"))
  else Valid v.

Definition checked_bind {A B} (c : checked A) (k : A → checked B)
  : checked B :=
  match c with
  | Valid a => k a
  | Invalid e => Invalid e
  end.

(** A required field given by keyword: the type validator, then the
    validator of the class. *)
Definition field {A} (type_validator : json → checked A)
    (class_validator : A → checked A) (v : option json) : checked A :=
  match v with
  | None => Invalid MissingError
  | Some j => checked_bind (type_validator j) class_validator
  end.

Definition errors_of {A} (name : string) (c : checked A)
  : list ErrorDetail :=
  match c with
  | Valid _ => []
  | Invalid e => [{| loc := name; err := e |}]
  end.

Record WrapperIn_t := { in_ttl : string; in_value : string }.
Record WrapperId_t := { id_id : string }.
Record WrapperPostOut_t := { post_id : string; post_expire : Z }.
Record WrapperGetOut_t :=
  { get_id : string; get_expire : Z; get_value : string }.

(** [WrapperIn] called on the keyword arguments [data]: fields [ttl]
    (inherited from [WrapperTtl]) and
    [value]; keys that are no field are ignored. *)
Definition WrapperIn (data : dict json) : result WrapperIn_t :=
  let ttl := field str_validator validate_value (dict_get data "ttl") in
  let value := field str_validator Valid (dict_get data "value") in
  match ttl, value with
  | Valid t, Valid v => Return {| in_ttl := t; in_value := v |}
  | _, _ =>
      Raise (ValidationError (errors_of "ttl" ttl ++ errors_of "value" value))
  end.

(** [WrapperId(id=v)] *)
Definition WrapperId (v : string) : result WrapperId_t :=
  match validate_id v with
  | Valid i => Return {| id_id := i |}
  | Invalid e => Raise (ValidationError [{| loc := "id"; err := e |}])
  end.

(** [WrapperPostOut(id=i, expire=e)], both arguments of type [str]. *)
Definition WrapperPostOut (i e : string) : result WrapperPostOut_t :=
  let id := validate_id i in
  let expire := int_validator e in
  match id, expire with
  | Valid i', Valid e' => Return {| post_id := i'; post_expire := e' |}
  | _, _ =>
      Raise (ValidationError (errors_of "id" id ++ errors_of "expire" expire))
  end.

(** [WrapperGetOut(id=i, value=v, expire=e)], all arguments of type
    [str]. *)
Definition WrapperGetOut (i v e : string) : result WrapperGetOut_t :=
  let id := validate_id i in
  let expire := int_validator e in
  match id, expire with
  | Valid i', Valid e' =>
      Return {| get_id := i'; get_expire := e'; get_value := v |}
  | _, _ =>
      Raise (ValidationError (errors_of "id" id ++ errors_of "expire" expire))
  end.

(** [json.loads(m.json())] *)
Definition WrapperPostOut_json (m : WrapperPostOut_t) : dict json :=
  [("id", JStr (post_id m)); ("expire", JInt (post_expire m))]%string.

Definition WrapperGetOut_json (m : WrapperGetOut_t) : dict json :=
  [("id", JStr (get_id m)); ("expire", JInt (get_expire m));
   ("value", JStr (get_value m))]%string.

End Models.

(** ** The clock: [datetime] *)

(** An instant is its count of whole seconds since the epoch; the fraction of
    a second that [utcnow] also carries is dropped by ['%s'] and left out.
    The process runs with UTC as its local time zone (the Lambda runtime), so
    that ['%s'] of a naive UTC datetime is its epoch second. *)
Module Datetime.

(** [datetime.max], 9999-12-31 23:59:59, and [datetime.min], 0001-01-01. *)
Definition MAX : Z := 253402300799.
Definition MIN : Z := -62135596800.

(** [timedelta(seconds=v)]: a number of seconds, at most 999999999 days in
    magnitude.  A float never gets here: [WrapperIn] has refused it. *)
Definition timedelta (seconds : json) : result Z :=
  let of_int n :=
    if 999999999 <? Z.abs (n / 86400) then Raise OverflowError
    else Return n in
  match seconds with
  | JInt n => of_int n
  | JBool b => of_int (if b then 1 else 0)
  | _ => Raise TypeError
  end.

(** [dt + td] *)
Definition add (dt td : Z) : result Z :=
  let r := dt + td in
  if (r <? MIN) || (MAX <? r) then Raise OverflowError else Return r.

(** [dt.strftime('%s')] *)
Definition strftime_s (dt : Z) : string := Py.str dt.

End Datetime.

(** ** [uuid] *)

Module Uuid.

(** [uuid.uuid4()], as the integer of the UUID: the 16 bytes of
    [os.urandom(16)], read as a big-endian integer [random_bits], with the
    variant and version bits set. *)
Definition uuid4 (random_bits : Z) : Z :=
  let i := Z.ldiff random_bits (Z.shiftl 0xc000 48) in
  let i := Z.lor i (Z.shiftl 0x8000 48) in
  let i := Z.ldiff i (Z.shiftl 0xf000 64) in
  Z.lor i (Z.shiftl 4 76).

(** [str(u)]: the 32 hexadecimal digits in groups of 8-4-4-4-12. *)
Definition str (u : Z) : list ascii :=
  let hex := Py.format_032x u in
  let dash := ["-"%char] in
  Py.slice 0 8 hex ++ dash ++ Py.slice 8 12 hex ++ dash ++
  Py.slice 12 16 hex ++ dash ++ Py.slice 16 20 hex ++ dash ++
  drop 20 hex.

End Uuid.

(** [random_id]; the argument is what [os.urandom] gave [uuid4]. *)
Definition random_id (random_bits : Z) : string :=
  let _uuid := Py.remove_char "-" (Uuid.str (Uuid.uuid4 random_bits)) in
  string_of_list_ascii _uuid.

(** ** The DynamoDB client *)

Module Dynamo.

(** An attribute value of a stored item. *)
Inductive AttributeValue :=
| S (s : string)
| N (n : string)
| BOOL (b : bool)
| NULL.

Abbreviation Item := (gmap string AttributeValue).

(** An attribute value as the application writes it in a call:
    [{'S': v}] or [{'N': v}]. *)
Inductive Param :=
| ParamS (v : json)
| ParamN (v : json).

(** The response of [delete_item]: [Attributes] is there when
    [ReturnValues='ALL_OLD'] and an item was deleted. *)
Record DeleteItemOutput := { Attributes : option Item }.

(** The two calls the application makes, over a backend state [St]. *)
Record Client (St : Type) := {
  put_item : option string → dict Param → St → result unit * St;
  delete_item : option string → dict Param → St
                → result DeleteItemOutput * St;
}.
Arguments put_item {St} _ _ _ _.
Arguments delete_item {St} _ _ _ _.

(** [a['S']], [a['N']] *)
Definition get_S (a : AttributeValue) : result string :=
  match a with
  | S s => Return s
  | _ => Raise (KeyError "S")
  end.

Definition get_N (a : AttributeValue) : result string :=
  match a with
  | N n => Return n
  | _ => Raise (KeyError "N")
  end.

(** [item[k]] *)
Definition item_subscript (item : Item) (k : string)
  : result AttributeValue :=
  match item !! k with
  | Some a => Return a
  | None => Raise (KeyError k)
  end.

(** *** A table that is there and answers

    The repository has the calls of the backend, not the backend: DynamoDB
    is an external collaborator.  The definitions from here to
    [table_client] give it the store contract of the specification: a
    key-value store keyed by the string attribute [id] (the partition key
    the stack declares), with an unconditional put and a delete that returns
    the item it removed, each one atomic step on the table.  Its state is the
    table.  Expiry of items is the backend's own business and no step of the
    application. *)

Abbreviation Table := (gmap string Item).

(** boto3 checks the shape of the parameters before the call is sent. *)
Definition check_param (p : Param) : result AttributeValue :=
  match p with
  | ParamS (JStr s) => Return (S s)
  | ParamN (JStr n) => Return (N n)
  | _ => Raise ParamValidationError
  end.

Fixpoint check_item (d : dict Param) : result (dict AttributeValue) :=
  match d with
  | [] => Return []
  | (k, p) :: d' =>
      result_bind (check_param p) (λ a,
      result_bind (check_item d') (λ r,
      Return ((k, a) :: r)))
  end.

Definition check_table (name : string) (TableName : option string)
  : result unit :=
  match TableName with
  | None => Raise ParamValidationError
  | Some t =>
      if String.eqb t name then Return ()
      else Raise (ClientError "ResourceNotFoundException")
  end.

(** The value of the partition key of an item or key. *)
Definition key_of (attrs : dict AttributeValue) : result string :=
  match dict_get attrs "id" with
  | Some (S k) => Return k
  | _ => Raise (ClientError "ValidationException")
  end.

Definition table_put_item (name : string) (TableName : option string)
    (Item : dict Param) (t : Table) : result unit * Table :=
  match result_bind (check_table name TableName) (λ _,
        result_bind (check_item Item) (λ attrs,
        result_bind (key_of attrs) (λ k, Return (k, attrs)))) with
  | Return (k, attrs) => (Return (), <[k := list_to_map attrs]> t)
  | Raise e => (Raise e, t)
  end.

Definition table_delete_item (name : string) (TableName : option string)
    (Key : dict Param) (t : Table) : result DeleteItemOutput * Table :=
  match result_bind (check_table name TableName) (λ _,
        result_bind (check_item Key) key_of) with
  | Return k => (Return {| Attributes := t !! k |}, delete k t)
  | Raise e => (Raise e, t)
  end.

(** Modelled from the spec: the client of the backend store (put, and
    atomic delete-and-return-previous-value by id) for the table [name]. *)
Definition table_client (name : string) : Client Table :=
  {| put_item := table_put_item name;
     delete_item := table_delete_item name |}.

(** A backend that cannot be reached: every call raises. *)
Definition unavailable_client {St} : Client St :=
  {| put_item := λ _ _ st,
       (Raise (ClientError "ServiceUnavailable"), st);
     delete_item := λ _ _ st,
       (Raise (ClientError "ServiceUnavailable"), st) |}.

(** A backend that answers every call and counts the calls it gets. *)
Definition counting_client : Client nat :=
  {| put_item := λ _ _ n, (Return (), Datatypes.S n);
     delete_item := λ _ _ n,
       (Return {| Attributes := None |}, Datatypes.S n) |}.

End Dynamo.

(** ** Chalice: requests and responses *)

Module Chalice.

Record LambdaContext := { aws_request_id : string }.

(** [json_body] is a property: reading it raises [BadRequestError] when the
    body is no JSON document. *)
Record Request := {
  lambda_context : LambdaContext;
  json_body : result json;
}.

(** The values the application puts in a response body. *)
Inductive body_value :=
| VStr (s : string)
| VErrors (errors : list Pydantic.ErrorDetail)
| VData (data : dict json).

Record Response := {
  body : dict body_value;
  status_code : Z;
  headers : dict string;
}.

(** [Response(body, headers=None, status_code=200)] *)
Definition make_response (body : dict body_value)
    (status_code : option Z) (headers : option (dict string)) : Response :=
  {| body := body;
     status_code := default 200 status_code;
     headers := default [] headers |}.

End Chalice.

(** ** Handlers: state passing with exceptions *)

Definition Handler (St A : Type) : Type := St → result A * St.

Definition ret {St A} (a : A) : Handler St A := λ st, (Return a, st).

Definition raise {St A} (e : exn) : Handler St A := λ st, (Raise e, st).

Definition lift {St A} (r : result A) : Handler St A := λ st, (r, st).

Definition bind {St A B} (m : Handler St A) (k : A → Handler St B)
  : Handler St B :=
  λ st, match m st with
        | (Return a, st') => k a st'
        | (Raise e, st') => (Raise e, st')
        end.

(** [try: m except Exception as e: h e] *)
Definition try_except {St A} (m : Handler St A) (h : exn → Handler St A)
  : Handler St A :=
  λ st, match m st with
        | (Return a, st') => (Return a, st')
        | (Raise e, st') => h e st'
        end.

Notation "'let!' x ':=' m 'in' k" := (bind m (λ x, k))
  (at level 10, x pattern, m at level 100, k at level 200).

Notation "r >>= f" := (result_bind r f) (at level 50, left associativity).

(** ** The application: [runtime/wrapper/app.py] *)

Section App.
Import Chalice Models.

Context {St : Type}.

(** What [get_dynamo_client()] gives: the client, or the exception
    [boto3.client] raised. *)
Variable get_dynamo_client : result (Dynamo.Client St).

(** [os.environ.get("WRAPPER_TABLE_NAME")] *)
Variable WRAPPER_TABLE_NAME : option string.

Definition JSON_HEADERS : dict string :=
  [("Content-Type", "application/json")]%string.

Definition failed (error : body_value) (request_id : string)
  : dict body_value :=
  [("status", VStr "failed"); ("error", error);
   ("ref", VStr request_id)]%string.

Definition success (data : dict json) (request_id : string)
  : dict body_value :=
  [("status", VStr "success"); ("data", VData data);
   ("ref", VStr request_id)]%string.

(** [validation_jsonify]: the list of error descriptions. *)
Definition validation_jsonify (errors : list Pydantic.ErrorDetail)
  : body_value := VErrors errors.

(** POST /v1/wrapper.  [utcnow] is the reading of the clock and
    [random_bits] the bytes drawn for the identifier. *)
Definition v1_wrapper_post (request : Request) (utcnow random_bits : Z)
  : Handler St Response :=
  let request_id := aws_request_id (lambda_context request) in
  try_except
    (match json_body request >>= kwargs >>= WrapperIn with
     | Raise (ValidationError e) =>
         let body := failed (validation_jsonify e) request_id in
         ret (make_response (dict_set body "ref" (VStr request_id))
                (Some 200) (Some JSON_HEADERS))
     | Raise e => raise e
     | Return _ =>
         let wrap_id := random_id random_bits in
         let! dynamo := lift get_dynamo_client in
         let! _expire_datetime :=
           lift (json_body request >>= (λ b, json_subscript b "ttl")
                 >>= Datetime.timedelta >>= Datetime.add utcnow) in
         let expire := Datetime.strftime_s _expire_datetime in
         match WrapperPostOut wrap_id expire with
         | Raise (ValidationError e) =>
             ret (make_response (failed (VStr "internal error") request_id)
                    (Some 200) (Some JSON_HEADERS))
         | Raise e => raise e
         | Return wrapper_out =>
             let! value :=
               lift (json_body request >>= (λ b, json_subscript b "value")) in
             let! _ :=
               Dynamo.put_item dynamo WRAPPER_TABLE_NAME
                 [("id", Dynamo.ParamS (JStr wrap_id));
                  ("value", Dynamo.ParamS value);
                  ("ttl", Dynamo.ParamN (JStr expire))]%string in
             ret (make_response
                    (success (WrapperPostOut_json wrapper_out) request_id)
                    (Some 200) (Some JSON_HEADERS))
         end
     end)
    (λ e,
       ret (make_response (failed (VStr "internal error") request_id)
              (Some 200) (Some JSON_HEADERS))).

(** The three arguments of [WrapperGetOut], read from the deleted item. *)
Definition get_out (attrs : Dynamo.Item) : result WrapperGetOut_t :=
  Dynamo.item_subscript attrs "id" >>= Dynamo.get_S >>= (λ id,
  Dynamo.item_subscript attrs "value" >>= Dynamo.get_S >>= (λ value,
  Dynamo.item_subscript attrs "ttl" >>= Dynamo.get_N >>= (λ expire,
  WrapperGetOut id value expire))).

Definition not_found (request_id : string) : Response :=
  make_response (failed (VStr "wrapper id not found or expired") request_id)
    (Some 200) (Some JSON_HEADERS).

(** GET /v1/wrapper/{wrap_id} *)
Definition v1_wrapper_get (request : Request) (wrap_id : string)
  : Handler St Response :=
  let request_id := aws_request_id (lambda_context request) in
  try_except
    (match WrapperId wrap_id with
     | Raise (ValidationError e) =>
         ret (make_response (failed (validation_jsonify e) request_id)
                (Some 200) (Some JSON_HEADERS))
     | Raise e => raise e
     | Return _ =>
         let! dynamo := lift get_dynamo_client in
         let! response :=
           Dynamo.delete_item dynamo WRAPPER_TABLE_NAME
             [("id", Dynamo.ParamS (JStr wrap_id))]%string in
         match Dynamo.Attributes response with
         | None => ret (not_found request_id)
         | Some attrs =>
             match get_out attrs with
             | Raise (ValidationError e) =>
                 ret (make_response
                        (failed (validation_jsonify e) request_id)
                        (Some 200) (Some JSON_HEADERS))
             | Raise e => raise e
             | Return return_data =>
                 ret (make_response
                        (success (WrapperGetOut_json return_data) request_id)
                        (Some 200) (Some JSON_HEADERS))
             end
         end
     end)
    (λ e,
       ret (make_response (failed (VStr "internal error") request_id)
              None None)).

End App.

(** ** Concurrent retrievals

    Invocations of the GET handler share nothing but the table.  An
    invocation does local work, makes one call of the backend
    ([delete_item], which the backend performs as one atomic step), and does
    local work again to build its response.  A run of several invocations is
    an interleaving of these steps, chosen by a schedule. *)

Module Concurrent.
Import Chalice.

Inductive thread :=
| Called (request : Request)
    (* the handler has been entered; the backend has not been called *)
| Answered (request : Request) (r : result Dynamo.DeleteItemOutput)
    (* [delete_item] has returned or raised; no response is built yet *)
| Returned (response : result Response).

Record system := { table : Dynamo.Table; threads : list thread }.

Section Run.
Variable name : string.
Variable wrap_id : string.

(** A client that hands back an answer the backend has already given. *)
Definition answered (r : result Dynamo.DeleteItemOutput)
  : Dynamo.Client unit :=
  {| Dynamo.put_item := λ _ _ st, (Raise TypeError, st);
     Dynamo.delete_item := λ _ _ st, (r, st) |}.

(** The handler from its entry up to the return of the backend call; an
    invocation that fails validation returns without calling. *)
Definition call (request : Request) (t : Dynamo.Table)
  : thread * Dynamo.Table :=
  match Models.WrapperId wrap_id with
  | Return _ =>
      let '(r, t') :=
        Dynamo.delete_item (Dynamo.table_client name) (Some name)
          [("id", Dynamo.ParamS (JStr wrap_id))]%string t in
      (Answered request r, t')
  | Raise _ =>
      (Returned
         (fst (v1_wrapper_get (Return (Dynamo.table_client name))
                 (Some name) request wrap_id t)), t)
  end.

(** The handler from the return of the backend call to its end. *)
Definition finish (request : Request)
    (r : result Dynamo.DeleteItemOutput) : result Response :=
  fst (v1_wrapper_get (Return (answered r)) (Some name) request wrap_id ()).

Definition thread_step (th : thread) (t : Dynamo.Table)
  : thread * Dynamo.Table :=
  match th with
  | Called request => call request t
  | Answered request r => (Returned (finish request r), t)
  | Returned response => (Returned response, t)
  end.

(** Thread [i] takes its next step. *)
Definition step (i : nat) (s : system) : system :=
  match threads s !! i with
  | Some th =>
      let '(th', t') := thread_step th (table s) in
      {| table := t'; threads := <[i := th']> (threads s) |}
  | None => s
  end.

Fixpoint run (schedule : list nat) (s : system) : system :=
  match schedule with
  | [] => s
  | i :: schedule' => run schedule' (step i s)
  end.

Definition start (t : Dynamo.Table) (requests : list Request) : system :=
  {| table := t; threads := Called <$> requests |}.

Definition returned (th : thread) : Prop :=
  match th with
  | Returned _ => True
  | _ => False
  end.

End Run.

(** How far an invocation has got. *)
Definition steps_taken (th : thread) : nat :=
  match th with
  | Called _ => 0
  | Answered _ _ => 1
  | Returned _ => 2
  end.

(** The states a race for one item goes through. *)
Section Race.
Variable wrap_id : string.
Variable item : Dynamo.Item.
Variable data : Models.WrapperGetOut_t.

(** The response that carries the item. *)
Definition won (request : Request) : Response :=
  make_response
    (success (Models.WrapperGetOut_json data)
       (aws_request_id (lambda_context request)))
    (Some 200) (Some JSON_HEADERS).

(** The invocation that deleted the item holds it or has returned it. *)
Definition winner (request : Request) (th : thread) : Prop :=
  th = Answered request (Return {| Dynamo.Attributes := Some item |})
  ∨ th = Returned (Return (won request)).

(** Any other invocation has not called yet, or found nothing. *)
Definition loser (request : Request) (th : thread) : Prop :=
  th = Called request
  ∨ th = Answered request (Return {| Dynamo.Attributes := None |})
  ∨ th = Returned
           (Return (not_found (aws_request_id (lambda_context request)))).

(** Either the item is in the table and nobody has called, or it is
    gone and exactly one invocation, [w], got it. *)
Definition invariant (requests : list Request) (s : system) : Prop :=
  length (threads s) = length requests ∧
  ((table s !! wrap_id = Some item ∧ threads s = Called <$> requests)
   ∨ (table s !! wrap_id = None ∧
      ∃ w, (w < length requests)%nat ∧
           ∀ j request, requests !! j = Some request →
             ∃ th, threads s !! j = Some th ∧
                   if decide (j = w) then winner request th
                   else loser request th)).
End Race.

End Concurrent.

(** ** What a response says *)

Module Reply.
Import Chalice.

Definition status (r : Response) : option body_value :=
  dict_get (body r) "status".

Definition error (r : Response) : option body_value :=
  dict_get (body r) "error".

Definition data (r : Response) : option body_value :=
  dict_get (body r) "data".

Definition ref (r : Response) : option body_value :=
  dict_get (body r) "ref".

Definition is_success (r : Response) : Prop :=
  status r = Some (VStr "success").

Definition is_failed (r : Response) : Prop :=
  status r = Some (VStr "failed").

(** The outcome [NotFound]. *)
Definition is_not_found (r : Response) : Prop :=
  is_failed r ∧ error r = Some (VStr "wrapper id not found or expired").

(** A validation error that names the field [name]. *)
Definition names_field (name : string) (r : Response) : Prop :=
  is_failed r ∧
  ∃ errors, error r = Some (VErrors errors) ∧
            ∃ e, e ∈ errors ∧ Pydantic.loc e = name.

Definition is_internal_error (r : Response) : Prop :=
  is_failed r ∧ error r = Some (VStr "internal error").

(** A successful creation: the identifier and the expiry it reports. *)
Definition created (id : string) (expire : Z) (r : Response) : Prop :=
  is_success r ∧
  data r = Some (VData [("id", JStr id); ("expire", JInt expire)]%string).

(** The envelope every caller is promised: status code 200, a [status]
    that is success or failed, and the correlation identifier of the
    request as [ref]. *)
Definition enveloped (request : Request) (r : result Response) : Prop :=
  ∃ response, r = Return response ∧ status_code response = 200 ∧
    (is_success response ∨ is_failed response) ∧
    ref response = Some (VStr (aws_request_id (lambda_context request))).

(** A successful retrieval. *)
Definition retrieved (id value : string) (expire : Z) (r : Response)
  : Prop :=
  is_success r ∧
  data r = Some (VData [("id", JStr id); ("expire", JInt expire);
                        ("value", JStr value)]%string).

End Reply.

(** ** The service as deployed

    The handlers with the client of the table that the stack creates and
    names in [WRAPPER_TABLE_NAME]. *)

Module Service.
Import Chalice.

Definition create (name : string) (request : Request)
    (utcnow random_bits : Z) : Handler Dynamo.Table Response :=
  v1_wrapper_post (Return (Dynamo.table_client name)) (Some name)
    request utcnow random_bits.

Definition retrieve (name : string) (request : Request) (wrap_id : string)
  : Handler Dynamo.Table Response :=
  v1_wrapper_get (Return (Dynamo.table_client name)) (Some name)
    request wrap_id.

(** A request with the given correlation identifier and JSON body. *)
Definition request_of (request_id : string) (j : json) : Request :=
  {| lambda_context := {| aws_request_id := request_id |};
     json_body := Return j |}.

(** The item [create] writes for an identifier, a value and an expiry. *)
Definition item_of (id value expire : string) : Dynamo.Item :=
  list_to_map [("id", Dynamo.S id); ("value", Dynamo.S value);
               ("ttl", Dynamo.N expire)]%string.

End Service.

(** ** Sample runs *)

Module Sample.
Import Chalice.

Definition name : string := "wrapperTable".

(** The creation of the specification's example, with a number for
    [ttl]. *)
Definition post_request : Request :=
  Service.request_of "ref-1"
    (JDict [("value", JStr "s3cr3t"); ("ttl", JInt 60)]%string).

Definition get_request : Request := Service.request_of "ref-2" JNull.

Definition utcnow : Z := 1604498400.

Definition random_bits : Z := 2 ^ 127 + 12345.

Definition id : string := "80000000000040008000000000003039".

Definition created : Response :=
  make_response
    (success [("id", JStr id); ("expire", JInt 1604498460)]%string "ref-1")
    (Some 200) (Some JSON_HEADERS).

(** The table after the sample creation on an empty table. *)
Definition table : Dynamo.Table :=
  snd (Service.create name post_request utcnow random_bits ∅).

(** A table with one item under a short key, three requests for it, and
    an order in which their steps interleave. *)
Definition stored : Dynamo.Table :=
  {[ "abc"%string := Service.item_of "abc" "s3cr3t" "1604498460" ]}.

Definition requests : list Request :=
  [Service.request_of "ref-a" JNull; Service.request_of "ref-b" JNull;
   Service.request_of "ref-c" JNull].

Definition schedule : list nat := [1; 0; 2; 1; 2; 0]%nat.

(** An item whose [ttl] is a number, but no integer. *)
Definition malformed : Dynamo.Table :=
  {[ "abc"%string := Service.item_of "abc" "s3cr3t" "1.5" ]}.

(** The creation of the specification's example as it is written there,
    with a string for [ttl]. *)
Definition post_string_ttl (request_id : string) : Request :=
  Service.request_of request_id
    (JDict [("value", JStr "s3cr3t"); ("ttl", JStr "60")]%string).

End Sample.

(** ** The cached client: [get_dynamo_client] *)

Module ClientCache.

(** [get_dynamo_client()] on the module global [_DYNAMO].  [boto3_client] is
    what [boto3.client("dynamodb")] does if it is called now: it returns a
    client or raises, and when it raises the global is left as it was. *)
Definition get_dynamo_client {C : Type} (boto3_client : result C)
    (_DYNAMO : option C) : result C * option C :=
  match _DYNAMO with
  | None =>
      match boto3_client with
      | Return c => (Return c, Some c)
      | Raise e => (Raise e, None)
      end
  | Some c => (Return c, Some c)
  end.

(** One call after the other; each finds [boto3.client] in the mood the
    list gives for it. *)
Fixpoint calls {C : Type} (moods : list (result C)) (_DYNAMO : option C)
  : list (result C) * option C :=
  match moods with
  | [] => ([], _DYNAMO)
  | m :: moods' =>
      let '(r, g) := get_dynamo_client m _DYNAMO in
      let '(rs, g') := calls moods' g in
      (r :: rs, g')
  end.

End ClientCache.

(** ** The calls a handler makes *)

Module Trace.

Inductive call :=
| PutItem (TableName : option string) (Item : dict Dynamo.Param)
| DeleteItem (TableName : option string) (Key : dict Dynamo.Param).

(** A client that does what [c] does and writes every call it gets down,
    in order. *)
Definition recording {St : Type} (c : Dynamo.Client St)
  : Dynamo.Client (St * list call) :=
  {| Dynamo.put_item := λ TableName Item '(st, log),
       let '(r, st') := Dynamo.put_item c TableName Item st in
       (r, (st', log ++ [PutItem TableName Item]));
     Dynamo.delete_item := λ TableName Key '(st, log),
       let '(r, st') := Dynamo.delete_item c TableName Key st in
       (r, (st', log ++ [DeleteItem TableName Key])) |}.

(** The item [v1_wrapper_post] sends, and the key [v1_wrapper_get]
    sends. *)
Definition sent_item (wrap_id : string) (value : json) (expire : string)
  : dict Dynamo.Param :=
  [("id", Dynamo.ParamS (JStr wrap_id)); ("value", Dynamo.ParamS value);
   ("ttl", Dynamo.ParamN (JStr expire))]%string.

Definition sent_key (wrap_id : string) : dict Dynamo.Param :=
  [("id", Dynamo.ParamS (JStr wrap_id))]%string.

(** The IAM action a call needs. *)
Definition action (c : call) : string :=
  match c with
  | PutItem _ _ => "dynamodb:PutItem"
  | DeleteItem _ _ => "dynamodb:DeleteItem"
  end.

Definition table_of (c : call) : option string :=
  match c with
  | PutItem TableName _ | DeleteItem TableName _ => TableName
  end.

(** The attributes a call sends: the item, or the key. *)
Definition attributes_of (c : call) : dict Dynamo.Param :=
  match c with
  | PutItem _ Item => Item
  | DeleteItem _ Key => Key
  end.

End Trace.

(** ** The stack: [infrastructure/wrapper/wrapper_stack.py] *)

Module Stack.

Inductive AttributeType := BINARY | NUMBER | STRING.

Record Attribute := { name : string; type : AttributeType }.

(** [_create_wrapper_table]: the settings of the table. *)
Definition table_settings : dict Attribute :=
  [("partition_key", {| name := "id"; type := STRING |})]%string.

(** The stage configuration handed to Chalice, for a table of the given
    name. *)
Definition environment_variables (table_name : string) : dict string :=
  [("WRAPPER_TABLE_NAME", table_name);
   ("WRAPPER_APP_NAME", "WrapperChaliceApp");
   ("WRAPPER_ENV", "dev")]%string.

(** [_add_dynamo_permissions]: the actions granted to the role. *)
Definition _add_dynamo_permissions : list string :=
  ["dynamodb:PutItem"; "dynamodb:GetItem"; "dynamodb:DeleteItem"]%string.

(** [os.environ.get("WRAPPER_TABLE_NAME")] in the deployed function. *)
Definition WRAPPER_TABLE_NAME (environ : dict string) : option string :=
  dict_get environ "WRAPPER_TABLE_NAME".

(** A call sends the partition key, at the type the table declares. *)
Definition sends_partition_key (c : Trace.call) : Prop :=
  ∃ key, dict_get table_settings "partition_key" = Some key
         ∧ type key = STRING
         ∧ ∃ k, dict_get (Trace.attributes_of c) (name key)
                = Some (Dynamo.ParamS (JStr k)).

End Stack.

(** ** Histories of the service *)

Module History.
Import Chalice.

Inductive op :=
| Create (request : Request) (utcnow random_bits : Z)
| Retrieve (request : Request) (wrap_id : string).

Definition apply (name : string) (o : op) : Handler Dynamo.Table Response :=
  match o with
  | Create request utcnow random_bits =>
      Service.create name request utcnow random_bits
  | Retrieve request wrap_id => Service.retrieve name request wrap_id
  end.

(** The requests served one after the other, each with its response. *)
Fixpoint run (name : string) (ops : list op) (t : Dynamo.Table)
  : list (op * result Response) * Dynamo.Table :=
  match ops with
  | [] => ([], t)
  | o :: ops' =>
      let '(r, t') := apply name o t in
      let '(events, t'') := run name ops' t' in
      ((o, r) :: events, t'')
  end.

(** The response says success. *)
Definition succeeded (r : result Response) : bool :=
  match r with
  | Return response =>
      match dict_get (body response) "status" with
      | Some (VStr s) => String.eqb s "success"
      | _ => false
      end
  | Raise _ => false
  end.

(** The event is a successful creation that gave out [id]. *)
Definition gave (id : string) (event : op * result Response) : bool :=
  match event with
  | (Create _ _ random_bits, r) =>
      succeeded r && String.eqb (random_id random_bits) id
  | _ => false
  end.

(** The event is a successful retrieval of [id]. *)
Definition delivered (id : string) (event : op * result Response) : bool :=
  match event with
  | (Retrieve _ wrap_id, r) => succeeded r && String.eqb wrap_id id
  | _ => false
  end.

Definition tally {A} (f : A → bool) (l : list A) : nat :=
  length (List.filter f l).

(** 1 when the table holds an item under [id], 0 when not. *)
Definition present (id : string) (t : Dynamo.Table) : nat :=
  match t !! id with
  | Some _ => 1
  | None => 0
  end.

(** An item as [create] writes them. *)
Definition well_formed_item (k : string) (item : Dynamo.Item) : Prop :=
  Models.re_search_non_alnum k = false ∧
  ∃ value expire n,
    item = Service.item_of k value expire ∧ Py.int expire = Some n.

Definition well_formed (t : Dynamo.Table) : Prop :=
  ∀ k item, t !! k = Some item → well_formed_item k item.

End History.

(** The value of a hexadecimal digit. *)
Definition hex_value (c : ascii) : Z :=
  if Py.is_digit c then Py.code c - Py.code "0"
  else Py.code c - Py.code "a" + 10.

Definition hex_number (ds : list ascii) (acc : Z) : Z :=
  fold_left (λ a c, a * 16 + hex_value c) ds acc.

(** The bits of the random source that [uuid4] overwrites: the variant,
    bits 62 and 63, and the version, bits 76 to 79. *)
Definition uuid4_fixed_bits : Z :=
  Z.lor (Z.shiftl 0xc000 48) (Z.shiftl 0xf000 64).

(** ** More sample runs *)

Module Other.
Import Chalice.





(** The body of the sample creation, and the same with other keys around
    and in another order. *)
Definition plain : dict json :=
  [("value", JStr "s3cr3t"); ("ttl", JInt 60)]%string.


End Other.

(** A run of [create] that ended in anything but the success response. *)
Ltac not_success Hrun Hok :=
  exfalso; unfold ret, raise in Hrun; repeat case_match; simplify_eq;
  revert Hok; unfold Reply.is_success, Reply.status; simpl; congruence.

(** * Properties of the Python built-ins *)

Example int_60 : Py.int "60" = Some 60.
Proof. reflexivity. Qed.

Example int_padded : Py.int "  +1_000 " = Some 1000.
Proof. reflexivity. Qed.

Example int_bad_underscore : Py.int "1__0" = None.
Proof. reflexivity. Qed.

Example int_float_literal : Py.int "30.5" = None.
Proof. reflexivity. Qed.

Example str_epoch : Py.str 1604498400 = "1604498400"%string.
Proof. reflexivity. Qed.

Example str_negative : Py.str (-42) = "-42"%string.
Proof. reflexivity. Qed.

Example random_id_sample : random_id Sample.random_bits = Sample.id.
Proof. reflexivity. Qed.

Section Digits.

Lemma below_cases (v n : Z) :
  0 ≤ v < n → ∃ k : nat, (k < Z.to_nat n)%nat ∧ v = Z.of_nat k.
Proof. intros H. exists (Z.to_nat v). lia. Qed.

Lemma decimal_char_facts c :
  Py.decimal_char c →
  Py.digit_of c = Some (Py.digit_value c) ∧ Py.is_space c = false ∧
  Ascii.eqb c "_" = false ∧ Ascii.eqb c "+" = false ∧
  Ascii.eqb c "-" = false.
Proof.
  intros (v & Hv & ->).
  apply below_cases in Hv as (k & Hk & ->). simpl in Hk.
  do 10 (destruct k as [|k]; [by vm_compute|]). lia.
Qed.

Lemma digit_value_char v :
  0 ≤ v < 16 → v < 10 → Py.digit_value (Py.digit_char v) = v.
Proof.
  intros Hv Hlt.
  apply below_cases in Hv as (k & Hk & ->). simpl in Hk.
  do 10 (destruct k as [|k]; [by vm_compute|]). lia.
Qed.

Lemma number_app b ds1 ds2 acc :
  Py.number b (ds1 ++ ds2) acc = Py.number b ds2 (Py.number b ds1 acc).
Proof. apply fold_left_app. Qed.

(** [digits_onto] writes the digits of [n], and those only, when the fuel
    is enough. *)
Lemma digits_onto_spec b fuel : ∀ n acc,
  2 ≤ b ≤ 16 → (0 < fuel)%nat → 0 ≤ n < 2 ^ Z.of_nat fuel →
  ∃ ds, Py.digits_onto b fuel n acc = ds ++ acc ∧ ds ≠ [] ∧
        Forall (λ c, ∃ v, 0 ≤ v < b ∧ c = Py.digit_char v) ds ∧
        (b ≤ 10 → Py.number b ds 0 = n).
Proof.
  induction fuel as [|fuel IH]; intros n acc Hb Hfuel Hn; [lia|].
  simpl.
  assert (Hpow : 2 ^ Z.of_nat (S fuel) = 2 * 2 ^ Z.of_nat fuel).
  { rewrite Nat2Z.inj_succ, Z.pow_succ_r; lia. }
  destruct (Z.ltb_spec n b) as [Hlt|Hge].
  - exists [Py.digit_char (n mod b)]. rewrite Z.mod_small by lia.
      split; [done|]. split; [done|]. split.
      * constructor; [|constructor]. exists n. split; [lia|done].
      * intros Hten. unfold Py.number. simpl. rewrite digit_value_char; lia.
  - assert (Hq : 0 ≤ n / b < 2 ^ Z.of_nat fuel).
      { split; [apply Z.div_pos; lia|].
        apply Z.div_lt_upper_bound; [lia|]. nia. }
      assert (Hfuel' : (0 < fuel)%nat).
      { destruct fuel; [simpl in Hn; lia | lia]. }
      destruct (IH (n / b) (Py.digit_char (n mod b) :: acc) Hb Hfuel' Hq)
        as (ds & -> & Hne & Hall & Hval).
      exists (ds ++ [Py.digit_char (n mod b)]).
      rewrite <- app_assoc. split; [done|]. split; [|split].
      * destruct ds; done.
      * apply Forall_app. split; [done|].
        constructor; [|constructor]. exists (n mod b).
        split; [apply Z.mod_pos_bound; lia | done].
      * intros Hten. rewrite number_app, Hval by done. unfold Py.number. simpl.
        pose proof (Z.mod_pos_bound n b ltac:(lia)).
        rewrite digit_value_char by lia.
        rewrite (Z.div_mod n b) at 3 by lia. lia.
Qed.

Lemma digits_spec b n :
  2 ≤ b ≤ 16 → 0 ≤ n →
  ∃ ds, Py.digits b n = ds ∧ ds ≠ [] ∧
        Forall (λ c, ∃ v, 0 ≤ v < b ∧ c = Py.digit_char v) ds ∧
        (b ≤ 10 → Py.number b ds 0 = n).
Proof.
  intros Hb Hn. unfold Py.digits.
  destruct (digits_onto_spec b (S (Z.to_nat (Z.log2 n))) n [] Hb)
    as (ds & Heq & H); [lia | | ].
  - split; [done|].
    rewrite Nat2Z.inj_succ, Z2Nat.id by apply Z.log2_nonneg.
    destruct (Z.eq_dec n 0) as [->|]; [done|].
    apply Z.log2_spec. lia.
  - exists ds. rewrite app_nil_r in Heq. done.
Qed.

Lemma digits_onto_length b fuel : ∀ n acc k,
  2 ≤ b → 0 ≤ n < b ^ Z.of_nat k → (0 < k)%nat →
  (length (Py.digits_onto b fuel n acc) ≤ length acc + k)%nat.
Proof.
  induction fuel as [|fuel IH]; intros n acc k Hb Hn Hk; simpl; [lia|].
  destruct (Z.ltb_spec n b) as [Hlt|Hge]; simpl; [lia|].
  destruct k as [|k]; [lia|].
  rewrite Nat2Z.inj_succ, Z.pow_succ_r in Hn by lia.
  assert (Hk' : (0 < k)%nat).
  { destruct k; [simpl in Hn; lia | lia]. }
  specialize (IH (n / b) (Py.digit_char (n mod b) :: acc) k Hb).
  simpl in IH. etransitivity; [apply IH; [|done]|lia].
  split; [apply Z.div_pos; lia|].
  apply Z.div_lt_upper_bound; lia.
Qed.

Lemma int_rest_digits ds : ∀ acc,
  Forall Py.decimal_char ds → Py.int_rest acc ds = Some (Py.number 10 ds acc).
Proof.
  induction ds as [|d ds IH]; intros acc Hall; [done|].
  inversion Hall as [|? ? Hd Hds]; subst.
  destruct (decimal_char_facts d Hd) as (Hdig & Hsp & Hus & _).
  simpl. rewrite Hsp, Hus, Hdig. apply IH, Hds.
Qed.

Lemma int_unsigned_digits n :
  0 ≤ n → Py.int_unsigned (Py.digits 10 n) = Some n.
Proof.
  intros Hn.
  destruct (digits_spec 10 n ltac:(lia) Hn) as (ds & -> & Hne & Hall & Hval).
  destruct ds as [|d ds]; [done|].
  inversion Hall as [|? ? Hd Hds]; subst.
  destruct (decimal_char_facts d Hd) as (Hdig & _).
  simpl. rewrite Hdig, int_rest_digits by done.
  f_equal. rewrite <- Hval by lia. unfold Py.number. simpl. done.
Qed.

(** [int(str(n)) == n] *)
Lemma int_str n : Py.int (Py.str n) = Some n.
Proof.
  unfold Py.int, Py.str. rewrite list_ascii_of_string_of_list_ascii.
  unfold Py.str_chars, Py.int_of_chars.
  destruct (Z.ltb_spec n 0) as [Hneg|Hpos].
  - simpl. rewrite int_unsigned_digits by lia. simpl. f_equal. lia.
  - pose proof (int_unsigned_digits n Hpos) as Hint.
    destruct (digits_spec 10 n ltac:(lia) Hpos) as (ds & Heq & Hne & Hall & _).
    rewrite Heq in *. destruct ds as [|d ds]; [done|].
    inversion Hall as [|? ? Hd Hds]; subst.
    destruct (decimal_char_facts d Hd) as (_ & Hsp & _ & Hplus & Hminus).
    simpl. rewrite Hsp, Hplus, Hminus. exact Hint.
Qed.
End Digits.



Section RandomId.

Lemma hex_char_facts c :
  Py.hex_char c → Py.is_alnum c = true ∧ c ≠ "-"%char.
Proof.
  intros (v & Hv & ->).
  apply below_cases in Hv as (k & Hk & ->). simpl in Hk.
  do 16 (destruct k as [|k]; [by vm_compute|]). lia.
Qed.

Lemma small_of_high_bits x n :
  0 ≤ x → 0 ≤ n → (∀ k, n ≤ k → Z.testbit x k = false) → x < 2 ^ n.
Proof.
  intros Hx Hn Hbits.
  destruct (Z.eq_dec x 0) as [->|Hne]; [apply Z.pow_pos_nonneg; lia|].
  apply Z.log2_lt_pow2; [lia|].
  destruct (Z.lt_ge_cases (Z.log2 x) n) as [|Hge]; [done|].
  specialize (Hbits _ Hge). rewrite Z.bit_log2 in Hbits by lia. done.
Qed.

Lemma uuid4_range r : 0 ≤ r < 2 ^ 128 → 0 ≤ Uuid.uuid4 r < 2 ^ 128.
Proof.
  intros [Hr0 Hr]. unfold Uuid.uuid4.
  assert (H0 : 0 ≤ Z.lor (Z.ldiff (Z.lor (Z.ldiff r (Z.shiftl 0xc000 48))
                 (Z.shiftl 0x8000 48)) (Z.shiftl 0xf000 64)) (Z.shiftl 4 76)).
  { rewrite Z.lor_nonneg, Z.ldiff_nonneg, Z.lor_nonneg, Z.ldiff_nonneg.
    split; [left; split; [by left| done] | done]. }
  split; [exact H0|].
  apply small_of_high_bits; [exact H0 | done |].
  intros k Hk.
  assert (Hconst : ∀ c, 0 ≤ c → Z.log2 c < 128 → Z.testbit c k = false).
  { intros c Hc Hlog. apply Z.bits_above_log2; lia. }
  rewrite Z.lor_spec, Z.ldiff_spec, Z.lor_spec, Z.ldiff_spec.
  rewrite (Hconst (Z.shiftl 4 76)), (Hconst (Z.shiftl 0x8000 48)) by done.
  destruct (Z.eq_dec r 0) as [->|Hne]; [by rewrite Z.bits_0|].
  rewrite (Z.bits_above_log2 r k); [done | done |].
  assert (Z.log2 r < 128) by (apply Z.log2_lt_pow2; lia). lia.
Qed.

Lemma format_032x_spec n :
  0 ≤ n < 2 ^ 128 →
  length (Py.format_032x n) = 32%nat ∧ Forall Py.hex_char (Py.format_032x n).
Proof.
  intros [Hn0 Hn]. unfold Py.format_032x.
  destruct (digits_spec 16 n ltac:(lia) Hn0) as (ds & Heq & _ & Hall & _).
  assert (Hlen : (length (Py.digits 16 n) ≤ 32)%nat).
  { unfold Py.digits.
    apply (digits_onto_length 16 _ n [] 32); [lia | | lia].
    split; [done|]. exact Hn. }
  rewrite Heq in *. split.
  - rewrite length_app, repeat_length. lia.
  - apply Forall_app. split; [|exact Hall].
    apply Forall_forall. intros c Hc%list_elem_of_In%repeat_spec. subst c.
    exists 0. split; [lia|done].
Qed.

Lemma remove_char_clean (s : list ascii) :
  Forall (λ c, c ≠ "-"%char) s → Py.remove_char "-" s = s.
Proof.
  intros Hall. unfold Py.remove_char.
  induction Hall as [|c s Hc Hs IH]; [done|].
  rewrite filter_cons_True by done. by rewrite IH.
Qed.

Lemma remove_char_dash (s : list ascii) :
  Py.remove_char "-" ("-"%char :: s) = Py.remove_char "-" s.
Proof. unfold Py.remove_char. by rewrite filter_cons_False by auto. Qed.

Lemma remove_char_app (s1 s2 : list ascii) :
  Py.remove_char "-" (s1 ++ s2)
  = Py.remove_char "-" s1 ++ Py.remove_char "-" s2.
Proof. apply filter_app. Qed.

(** Taking the dashes out of the dashed form gives the 32 digits back. *)
Lemma random_id_hex r :
  0 ≤ r < 2 ^ 128 →
  random_id r = string_of_list_ascii (Py.format_032x (Uuid.uuid4 r)).
Proof.
  intros Hr. unfold random_id, Uuid.str. f_equal.
  destruct (format_032x_spec (Uuid.uuid4 r) (uuid4_range r Hr))
    as [Hlen Hall].
  set (hex := Py.format_032x (Uuid.uuid4 r)) in *.
  assert (Hclean : Forall (λ c, c ≠ "-"%char) hex).
  { eapply Forall_impl; [exact Hall|]. intros c Hc.
    by apply hex_char_facts. }
  assert (Hpart : ∀ i j, Forall (λ c, c ≠ "-"%char) (Py.slice i j hex)).
  { intros i j. unfold Py.slice. by apply Forall_take, Forall_drop. }
  repeat rewrite remove_char_app.
  repeat rewrite remove_char_dash.
  rewrite !remove_char_clean by (done || by apply Forall_drop).
  unfold Py.slice. simpl. change (drop 0 hex) with hex.
  replace (drop 20 hex) with (drop 4 (drop 16 hex)) by apply drop_drop.
  rewrite take_drop.
  replace (drop 16 hex) with (drop 4 (drop 12 hex)) by apply drop_drop.
  rewrite take_drop.
  replace (drop 12 hex) with (drop 4 (drop 8 hex)) by apply drop_drop.
  rewrite take_drop. apply take_drop.
Qed.


End RandomId.

(** * Properties of the handlers *)

Import Chalice.

Lemma re_search_non_alnum_true v :
  Models.re_search_non_alnum v = true ↔
  ∃ c, In c (list_ascii_of_string v) ∧ Py.is_alnum c = false.
Proof.
  unfold Models.re_search_non_alnum. rewrite existsb_exists.
  split; intros (c & Hin & Hc); exists c; split; try done.
  - by apply negb_true_iff.
  - by apply negb_true_iff.
Qed.

Lemma re_search_non_alnum_false v :
  Models.re_search_non_alnum v = false ↔
  Forall (λ c, Py.is_alnum c = true) (list_ascii_of_string v).
Proof.
  unfold Models.re_search_non_alnum.
  induction (list_ascii_of_string v) as [|c s IH]; simpl.
  - split; [constructor | done].
  - rewrite orb_false_iff, negb_false_iff, IH. split.
    + intros [? ?]. by constructor.
    + by inversion 1.
Qed.

Section Get.
Context {St : Type}.
Variable client : result (Dynamo.Client St).
Variable table_name : option string.

Lemma get_invalid_id request wrap_id st :
  Models.re_search_non_alnum wrap_id = true →
  v1_wrapper_get client table_name request wrap_id st
  = (Return (make_response
       (failed
          (VErrors
             [{| Pydantic.loc := "id";
                 Pydantic.err :=
                   Pydantic.ValueError
                     (Pydantic.Message "id contains invalid characters") |}])
          (aws_request_id (lambda_context request)))
       (Some 200) (Some JSON_HEADERS)), st).
Proof.
  intros Hbad.
  unfold v1_wrapper_get, try_except, Models.WrapperId, Models.validate_id.
  by rewrite Hbad.
Qed.
End Get.

(** ** The envelope of every response *)

Section Envelope.
Context {St : Type}.
Variable client : result (Dynamo.Client St).
Variable table_name : option string.

Lemma enveloped_failed request error sc hd :
  default 200 sc = 200 →
  Reply.enveloped request
    (Return (make_response
               (failed error (aws_request_id (lambda_context request)))
               sc hd)).
Proof.
  intros Hsc. eexists. split; [done|]. split; [exact Hsc|].
  split; [by right | done].
Qed.

Lemma enveloped_success request data :
  Reply.enveloped request
    (Return (make_response
               (success data (aws_request_id (lambda_context request)))
               (Some 200) (Some JSON_HEADERS))).
Proof. eexists. split; [done|]. split; [done|]. split; [by left | done]. Qed.

Lemma post_enveloped request utcnow random_bits st :
  Reply.enveloped request
    (fst (v1_wrapper_post client table_name request utcnow random_bits st)).
Proof.
  unfold v1_wrapper_post, try_except, bind, lift, ret, raise.
  repeat case_match; simplify_eq/=;
    try (apply enveloped_failed; done); try apply enveloped_success.
Qed.

Lemma get_enveloped request wrap_id st :
  Reply.enveloped request
    (fst (v1_wrapper_get client table_name request wrap_id st)).
Proof.
  unfold v1_wrapper_get, try_except, bind, lift, ret, raise, not_found.
  repeat case_match; simplify_eq/=;
    try (apply enveloped_failed; done); try apply enveloped_success.
Qed.
End Envelope.

(** ** The handlers against the table *)

Section Retrieve.
Variable name : string.

Lemma check_table_own : Dynamo.check_table name (Some name) = Return ().
Proof. unfold Dynamo.check_table. by rewrite String.eqb_refl. Qed.

Lemma table_delete_item_key wrap_id (t : Dynamo.Table) :
  Dynamo.table_delete_item name (Some name)
    [("id", Dynamo.ParamS (JStr wrap_id))]%string t
  = (Return {| Dynamo.Attributes := t !! wrap_id |}, delete wrap_id t).
Proof.
  unfold Dynamo.table_delete_item. by rewrite check_table_own.
Qed.

(** A retrieval with a well-formed identifier is the one backend call
    followed by the formatting of its answer. *)
Lemma retrieve_valid request wrap_id (t : Dynamo.Table) :
  Models.re_search_non_alnum wrap_id = false →
  Service.retrieve name request wrap_id t
  = (Concurrent.finish name wrap_id request
       (Return {| Dynamo.Attributes := t !! wrap_id |}),
     delete wrap_id t).
Proof.
  intros Hok.
  unfold Service.retrieve, Concurrent.finish, v1_wrapper_get, try_except,
    bind, lift, ret, raise, Models.WrapperId, Models.validate_id.
  rewrite Hok. simpl. rewrite table_delete_item_key. simpl.
  repeat case_match; simplify_eq/=; done.
Qed.

Lemma finish_none request wrap_id :
  Models.re_search_non_alnum wrap_id = false →
  Concurrent.finish name wrap_id request
    (Return {| Dynamo.Attributes := None |})
  = Return (not_found (aws_request_id (lambda_context request))).
Proof.
  intros Hok.
  unfold Concurrent.finish, v1_wrapper_get, try_except,
    bind, lift, ret, raise, Models.WrapperId, Models.validate_id.
  by rewrite Hok.
Qed.

Lemma get_out_item_of id value expire n :
  Models.re_search_non_alnum id = false → Py.int expire = Some n →
  get_out (Service.item_of id value expire)
  = Return {| Models.get_id := id; Models.get_expire := n;
              Models.get_value := value |}.
Proof.
  intros Hok Hn. unfold get_out, Service.item_of. 
  unfold Dynamo.item_subscript. simpl.
  rewrite !lookup_insert. simpl.
  unfold Models.WrapperGetOut, Models.validate_id, Models.int_validator.
  by rewrite Hok, Hn.
Qed.

Lemma finish_item request wrap_id item data :
  Models.re_search_non_alnum wrap_id = false →
  get_out item = Return data →
  Concurrent.finish name wrap_id request
    (Return {| Dynamo.Attributes := Some item |})
  = Return (make_response
              (success (Models.WrapperGetOut_json data)
                 (aws_request_id (lambda_context request)))
              (Some 200) (Some JSON_HEADERS)).
Proof.
  intros Hok Hout.
  unfold Concurrent.finish, v1_wrapper_get, try_except,
    bind, lift, ret, raise, Models.WrapperId, Models.validate_id.
  rewrite Hok. simpl. by rewrite Hout.
Qed.

Lemma retrieve_absent request wrap_id (t : Dynamo.Table) :
  Models.re_search_non_alnum wrap_id = false → t !! wrap_id = None →
  Service.retrieve name request wrap_id t
  = (Return (not_found (aws_request_id (lambda_context request))), t).
Proof.
  intros Hok Hnone. rewrite retrieve_valid by done.
  rewrite Hnone, finish_none by done. by rewrite delete_id.
Qed.

Lemma not_found_is_not_found request_id :
  Reply.is_not_found (not_found request_id).
Proof. by split. Qed.

Lemma validate_value_str n :
  Models.validate_value (Py.str n)
  = if n <? 30
    then Pydantic.Invalid (Pydantic.ValueError
           (Pydantic.Message "must be greater than 30 seconds"))
    else Pydantic.Valid (Py.str n).
Proof. unfold Models.validate_value. by rewrite int_str. Qed.

Lemma create_success_inv request utcnow random_bits
    (t t' : Dynamo.Table) response :
  Service.create name request utcnow random_bits t = (Return response, t') →
  Reply.is_success response →
  ∃ d ttl value,
    json_body request = Return (JDict d) ∧
    dict_get d "ttl" = Some (JInt ttl) ∧
    dict_get d "value" = Some (JStr value) ∧
    30 ≤ ttl ∧
    Models.re_search_non_alnum (random_id random_bits) = false ∧
    response = make_response
      (success [("id", JStr (random_id random_bits));
                ("expire", JInt (utcnow + ttl))]%string
         (aws_request_id (lambda_context request)))
      (Some 200) (Some JSON_HEADERS) ∧
    t' = <[random_id random_bits :=
             Service.item_of (random_id random_bits) value
               (Py.str (utcnow + ttl))]> t.
Proof.
  unfold Service.create, v1_wrapper_post, try_except, bind, lift.
  intros Hrun Hok.
  destruct (json_body request) as [body|] eqn:Hbody; simpl in Hrun.
  2: by not_success Hrun Hok.
  destruct body as [| | | | |l|d]; simpl in Hrun;
    try by not_success Hrun Hok.
  unfold Models.WrapperIn, Models.field, subscript in Hrun.
  destruct (dict_get d "ttl") as [jt|] eqn:Httl; [|by not_success Hrun Hok].
  destruct (dict_get d "value") as [jv|] eqn:Hvalue;
    [|by not_success Hrun Hok].
  destruct jt as [|b|ttl|f|s|l|d']; simpl in Hrun;
    try (by not_success Hrun Hok).
  rewrite validate_value_str in Hrun.
  destruct (Z.ltb_spec ttl 30) as [Hlt|Hge]; [by not_success Hrun Hok|].
  unfold Dynamo.table_put_item, Datetime.add, Datetime.strftime_s,
    Models.WrapperPostOut, Models.validate_id, Models.int_validator in Hrun.
  rewrite check_table_own in Hrun.
  destruct (999999999 <? Z.abs (ttl `div` 86400)); simpl in Hrun;
    [by not_success Hrun Hok|].
  destruct ((utcnow + ttl <? Datetime.MIN) || (Datetime.MAX <? utcnow + ttl));
    simpl in Hrun; [by not_success Hrun Hok|].
  rewrite int_str in Hrun.
  destruct (Models.re_search_non_alnum (random_id random_bits)) eqn:Hid;
    simpl in Hrun; [by not_success Hrun Hok|].
  destruct jv as [|b|n|f|value|l|d']; simpl in Hrun;
    try (by not_success Hrun Hok).
  unfold ret in Hrun. simplify_eq.
  exists d, ttl, value. done.
Qed.
(** A stored item that lacks an attribute, or has it at another type,
    ends the retrieval in the generic internal error too. *)
Lemma get_out_key_error request wrap_id item k :
  Models.re_search_non_alnum wrap_id = false →
  get_out item = Raise (KeyError k) →
  Concurrent.finish name wrap_id request
    (Return {| Dynamo.Attributes := Some item |})
  = Return (make_response
              (failed (VStr "internal error")
                 (aws_request_id (lambda_context request)))
              None None).
Proof.
  intros Hid Hout.
  unfold Concurrent.finish, v1_wrapper_get, try_except, bind, lift, ret,
    raise, Models.WrapperId, Models.validate_id.
  rewrite Hid. simpl. by rewrite Hout.
Qed.



Lemma create_ttl_below_30 request d n utcnow random_bits
    (t : Dynamo.Table) :
  json_body request = Return (JDict d) →
  (dict_get d "ttl" = Some (JInt n)
   ∨ ∃ s, dict_get d "ttl" = Some (JStr s) ∧ Py.int s = Some n) →
  n < 30 →
  ∃ response,
    Service.create name request utcnow random_bits t = (Return response, t)
    ∧ Reply.names_field "ttl" response.
Proof.
  intros Hbody Httl Hlt.
  assert (Hfield :
    Models.field Models.str_validator Models.validate_value
      (dict_get d "ttl")
    = Pydantic.Invalid (Pydantic.ValueError
        (Pydantic.Message "must be greater than 30 seconds"))).
  { destruct Httl as [->|(s & -> & Hs)]; simpl.
    - rewrite validate_value_str.
      by destruct (Z.ltb_spec n 30); [|lia].
    - unfold Models.validate_value. rewrite Hs.
      by destruct (Z.ltb_spec n 30); [|lia]. }
  unfold Service.create, v1_wrapper_post, try_except, bind, lift.
  rewrite Hbody. simpl. unfold Models.WrapperIn. rewrite Hfield. simpl.
  eexists. split; [reflexivity|].
  split; [done|]. eexists. split; [reflexivity|].
  eexists. split; [apply list_elem_of_here | done].
Qed.
End Retrieve.

(** ** Faults of the backend *)

Section Faults.
Context {St : Type}.
Variable table_name : option string.


(** So does a client that could not be made. *)
Lemma get_no_client request wrap_id (st : St) e :
  Models.re_search_non_alnum wrap_id = false →
  v1_wrapper_get (Raise e) table_name request wrap_id st
  = (Return (make_response
               (failed (VStr "internal error")
                  (aws_request_id (lambda_context request)))
               None None), st).
Proof.
  intros Hid.
  unfold v1_wrapper_get, try_except, bind, lift, ret, raise,
    Models.WrapperId, Models.validate_id.
  by rewrite Hid.
Qed.

(** The creation never lets a fault of the backend through either:
    whatever the client does, a response that is not the success response
    and not a validation error is the generic internal error. *)
Lemma post_failure_kinds (client : result (Dynamo.Client St)) request
    utcnow random_bits st :
  ∃ response,
    fst (v1_wrapper_post client table_name request utcnow random_bits st)
    = Return response
    ∧ (Reply.is_success response
       ∨ Reply.is_internal_error response
       ∨ (∃ errors, Reply.is_failed response ∧
            Reply.error response = Some (VErrors errors))).
Proof.
  unfold v1_wrapper_post, try_except, bind, lift, ret, raise.
  repeat case_match; simplify_eq/=; eexists; (split; [reflexivity|]);
    first [ by left | by right; left | right; right; by eexists ].
Qed.
End Faults.



Lemma item_of_lookup_value id value expire :
  Service.item_of id value expire !! "value"%string = Some (Dynamo.S value).
Proof. done. Qed.


(** ** Concurrent retrievals of one item *)

Section Race.
Import Concurrent.
Variable name wrap_id : string.
Variable item : Dynamo.Item.
Variable data : Models.WrapperGetOut_t.
Hypothesis Hid : Models.re_search_non_alnum wrap_id = false.
Hypothesis Hout : get_out item = Return data.

Lemma call_valid request (t : Dynamo.Table) :
  call name wrap_id request t
  = (Answered request (Return {| Dynamo.Attributes := t !! wrap_id |}),
     delete wrap_id t).
Proof.
  unfold call, Models.WrapperId, Models.validate_id. rewrite Hid. simpl.
  by rewrite table_delete_item_key.
Qed.

Lemma step_invariant requests i s :
  invariant wrap_id item data requests s →
  invariant wrap_id item data requests (step name wrap_id i s).
Proof.
  intros [Hlen Hinv]. unfold step.
  destruct (threads s !! i) as [th|] eqn:Hth; [|by split].
  assert (Hi : (i < length (threads s))%nat) by by eapply lookup_lt_Some.
  destruct Hinv as [[Htab Hall]|[Htab (w & Hwlt & Hw)]].
  - (* nobody has called yet: thread [i] wins *)
    rewrite Hall in Hth. rewrite list_lookup_fmap in Hth.
    destruct (requests !! i) as [request|] eqn:Hreq; [|done].
    simpl in Hth. simplify_eq. simpl. rewrite call_valid, Htab.
    split; simpl; [by rewrite length_insert|]. right.
    split; [apply lookup_delete_eq|]. exists i.
    split; [by eapply lookup_lt_Some|]. intros j rj Hj.
    assert (j = i ∨ j ≠ i) as [->|Hne] by lia.
    + eexists. split; [by apply list_lookup_insert_eq|].
      simplify_eq. rewrite decide_True by done. by left.
    + eexists. rewrite list_lookup_insert_ne by done.
      rewrite Hall, list_lookup_fmap, Hj. split; [done|].
      rewrite decide_False by done. by left.
  - destruct (lt_dec i (length requests)) as [Hlt|]; [|lia].
    destruct (lookup_lt_is_Some_2 requests i Hlt) as [request Hreq].
    destruct (Hw i request Hreq) as (th' & Hth' & Hrole).
    simplify_eq.
    assert (Hrest : ∀ th'' j rj, j ≠ i → requests !! j = Some rj →
              ∃ th0, <[i:=th'']> (threads s) !! j = Some th0 ∧
                     if decide (j = w) then winner item data rj th0
                     else loser rj th0).
    { intros th'' j rj Hne Hj. rewrite list_lookup_insert_ne by done.
      by apply Hw. }
    destruct (decide (i = w)) as [->|Hne].
    + (* the winner moves on *)
      destruct Hrole as [->| ->]; simpl.
      * rewrite finish_item with (data := data) by done.
        split; simpl; [by rewrite length_insert|]. right.
        split; [done|]. exists w. split; [done|]. intros j rj Hj.
        assert (j = w ∨ j ≠ w) as [->|Hne] by lia; [|by apply Hrest].
        eexists. split; [by apply list_lookup_insert_eq|].
        simplify_eq. rewrite decide_True by done. by right.
      * split; simpl; [by rewrite length_insert|]. right.
        split; [done|]. exists w. split; [done|]. intros j rj Hj.
        assert (j = w ∨ j ≠ w) as [->|Hne] by lia; [|by apply Hrest].
        eexists. split; [by apply list_lookup_insert_eq|].
        simplify_eq. rewrite decide_True by done. by right.
    + (* a loser moves on *)
      destruct Hrole as [->|[->| ->]]; simpl.
      * rewrite call_valid, Htab.
        split; simpl; [by rewrite length_insert|]. right.
        split; [by rewrite delete_id|]. exists w. split; [done|].
        intros j rj Hj.
        assert (j = i ∨ j ≠ i) as [->|Hne'] by lia; [|by apply Hrest].
        eexists. split; [by apply list_lookup_insert_eq|].
        simplify_eq. rewrite decide_False by done. right. by left.
      * rewrite finish_none by done.
        split; simpl; [by rewrite length_insert|]. right.
        split; [done|]. exists w. split; [done|]. intros j rj Hj.
        assert (j = i ∨ j ≠ i) as [->|Hne'] by lia; [|by apply Hrest].
        eexists. split; [by apply list_lookup_insert_eq|].
        simplify_eq. rewrite decide_False by done. right. by right.
      * split; simpl; [by rewrite length_insert|]. right.
        split; [done|]. exists w. split; [done|]. intros j rj Hj.
        assert (j = i ∨ j ≠ i) as [->|Hne'] by lia; [|by apply Hrest].
        eexists. split; [by apply list_lookup_insert_eq|].
        simplify_eq. rewrite decide_False by done. right. by right.
Qed.

Lemma run_invariant requests schedule : ∀ s,
  invariant wrap_id item data requests s →
  invariant wrap_id item data requests (run name wrap_id schedule s).
Proof.
  induction schedule as [|i schedule IH]; intros s Hinv; [done|].
  simpl. by apply IH, step_invariant.
Qed.

Lemma start_invariant (t : Dynamo.Table) requests :
  t !! wrap_id = Some item →
  invariant wrap_id item data requests (start t requests).
Proof.
  intros Ht. split; simpl; [by rewrite length_fmap|]. by left.
Qed.

(** When every invocation has returned, one of them has the item and each
    of the others has [NotFound]. *)
Lemma race_outcome (t : Dynamo.Table) requests schedule :
  t !! wrap_id = Some item →
  requests ≠ [] →
  let s := run name wrap_id schedule (start t requests) in
  Forall returned (threads s) →
  length (threads s) = length requests ∧
  table s !! wrap_id = None ∧
  ∃ w, (w < length requests)%nat ∧
    ∀ j request, requests !! j = Some request →
      threads s !! j
      = Some (Returned (Return
          (if decide (j = w) then won data request
           else not_found (aws_request_id (lambda_context request))))).
Proof.
  intros Ht Hne s Hdone.
  destruct (run_invariant requests schedule _
              (start_invariant t requests Ht)) as [Hlen Hinv].
  fold s in Hlen, Hinv. split; [done|].
  destruct Hinv as [[_ Hall]|[Hgone (w & Hwlt & Hw)]].
  - exfalso. rewrite Hall in Hdone.
    destruct requests as [|r rs]; [done|].
    by inversion Hdone.
  - split; [done|]. exists w. split; [done|].
    intros j request Hj.
    destruct (Hw j request Hj) as (th & Hth & Hrole).
    assert (Hret : returned th).
    { eapply Forall_forall; [exact Hdone|].
      by eapply list_elem_of_lookup_2. }
    rewrite Hth. do 2 f_equal.
    destruct (decide (j = w)).
    + by destruct Hrole as [->| ->].
    + by destruct Hrole as [->|[->| ->]].
Qed.


End Race.

Section Progress.
Import Concurrent.
Variable name wrap_id : string.

Lemma thread_step_progress th (t : Dynamo.Table) :
  (2 `min` S (steps_taken th)
   ≤ steps_taken (fst (thread_step name wrap_id th t)))%nat.
Proof.
  destruct th as [request|request r|response]; simpl; [|lia|lia].
  unfold call. destruct (Models.WrapperId wrap_id); simpl; [|lia].
  destruct (Dynamo.table_delete_item _ _ _ _). simpl. lia.
Qed.

Lemma step_progress i j s th :
  threads s !! j = Some th →
  ∃ th', threads (step name wrap_id i s) !! j = Some th' ∧
    (2 `min` ((if decide (i = j) then 1 else 0) + steps_taken th)
     ≤ steps_taken th')%nat.
Proof.
  intros Hj. unfold step.
  destruct (threads s !! i) as [thi|] eqn:Hi.
  - pose proof (thread_step_progress thi (table s)) as Hstep.
    destruct (thread_step name wrap_id thi (table s)) as [thi' t'].
    change (2 `min` S (steps_taken thi) ≤ steps_taken thi')%nat in Hstep.
    cbn [threads]. destruct (decide (i = j)) as [->|Hne].
    + simplify_eq. exists thi'.
      split; [|lia].
      apply list_lookup_insert_eq. by eapply lookup_lt_Some.
    + exists th. rewrite list_lookup_insert_ne by done.
      split; [done | lia].
  - exists th. split; [done|].
    destruct (decide (i = j)) as [->|]; [congruence | lia].
Qed.

Lemma run_progress schedule : ∀ s j th,
  threads s !! j = Some th →
  ∃ th', threads (run name wrap_id schedule s) !! j = Some th' ∧
    (2 `min` (count_occ Nat.eq_dec schedule j + steps_taken th)
     ≤ steps_taken th')%nat.
Proof.
  induction schedule as [|i schedule IH]; intros s j th Hj;
    cbn [run count_occ].
  - exists th. split; [done | lia].
  - destruct (step_progress i j s th Hj) as (th1 & H1 & Hle1).
    destruct (IH _ j th1 H1) as (th' & H' & Hle).
    exists th'. split; [done|].
    destruct (Nat.eq_dec i j) as [->|Hne].
    + rewrite decide_True in Hle1 by done. lia.
    + rewrite decide_False in Hle1 by done. lia.
Qed.

(** A schedule that gives every invocation two steps brings every
    invocation to its return. *)
Lemma two_steps_each_all_returned (t : Dynamo.Table) requests schedule :
  (∀ j, (j < length requests)%nat →
        (2 ≤ count_occ Nat.eq_dec schedule j)%nat) →
  Forall returned
    (threads (run name wrap_id schedule (start t requests))).
Proof.
  intros Hfair. apply Forall_lookup. intros j th Hth.
  assert (Hlen : ∀ schedule s,
    length (threads (run name wrap_id schedule s)) = length (threads s)).
  { clear. induction schedule as [|i schedule IH]; intros s; [done|].
    simpl. rewrite IH. unfold step.
    destruct (threads s !! i); [|done].
    destruct (thread_step _ _ _ _). simpl. by rewrite length_insert. }
  assert (Hj : (j < length requests)%nat).
  { apply lookup_lt_Some in Hth. rewrite Hlen in Hth. simpl in Hth.
    by rewrite length_fmap in Hth. }
  destruct (lookup_lt_is_Some_2 requests j Hj) as [request Hreq].
  destruct (run_progress schedule (start t requests) j (Called request))
    as (th' & Hth' & Hle).
  { simpl. by rewrite list_lookup_fmap, Hreq. }
  simplify_eq. specialize (Hfair j Hj).
  destruct th; cbn [steps_taken returned] in *; [lia | lia | done].
Qed.
End Progress.

Section Faithful.
Import Concurrent.

(** An invocation that runs alone, its two steps back to back, is the
    handler. *)
Lemma thread_alone_is_handler name wrap_id request (t : Dynamo.Table) :
  let '(th, t') := thread_step name wrap_id (Called request) t in
  thread_step name wrap_id th t'
  = (Returned (fst (Service.retrieve name request wrap_id t)),
     snd (Service.retrieve name request wrap_id t)).
Proof.
  simpl. destruct (Models.re_search_non_alnum wrap_id) eqn:Hid'.
  - unfold call, Models.WrapperId, Models.validate_id. rewrite Hid'.
    simpl. unfold Service.retrieve. by rewrite get_invalid_id.
  - rewrite (call_valid name wrap_id Hid'), retrieve_valid by done. done.
Qed.
End Faithful.

(** * The properties of the service *)

Lemma with_state {A B} (p : A * B) (a : A) : fst p = a → p = (a, snd p).
Proof. intros <-. by destruct p. Qed.


(** C1. An item is stored under a well-formed identifier, and any number of
    GET invocations for that identifier (at least one) run concurrently, their
    steps interleaved in any order, the backend performing each [delete_item]
    atomically.  Once all have returned (as they have when each has been
    given two steps, [two_steps_each_all_returned]), exactly one of them,
    [w], has a response that is not [NotFound], the success response that
    carries the item's value and expiry, and every other one has the
    response [NotFound]. *)
Theorem exactly_one_concurrent_retrieval_wins
    (name wrap_id value expire : string) (n : Z) (t : Dynamo.Table)
    (requests : list Request) (schedule : list nat) :
  Models.re_search_non_alnum wrap_id = false →
  Py.int expire = Some n →
  t !! wrap_id = Some (Service.item_of wrap_id value expire) →
  requests ≠ [] →
  Forall Concurrent.returned
    (Concurrent.threads
       (Concurrent.run name wrap_id schedule (Concurrent.start t requests))) →
  ∃ w, (w < length requests)%nat ∧
    ∀ j request, requests !! j = Some request →
      ∃ response,
        Concurrent.threads
          (Concurrent.run name wrap_id schedule (Concurrent.start t requests))
        !! j = Some (Concurrent.Returned (Return response))
        ∧ if decide (j = w)
          then Reply.retrieved wrap_id value n response
               ∧ ¬ Reply.is_not_found response
          else Reply.is_not_found response.
Proof.
  intros Hid Hn Ht Hne Hdone.
  pose proof (get_out_item_of wrap_id value expire n Hid Hn) as Hout.
  destruct (race_outcome name wrap_id _ _ Hid Hout t requests schedule
              Ht Hne Hdone) as (_ & _ & w & Hw & Hall).
  exists w. split; [done|]. intros j request Hj.
  eexists. split; [by apply Hall|].
  destruct (decide (j = w)); [|apply not_found_is_not_found].
  split; [by split|]. intros [Hfailed _]. discriminate Hfailed.
Qed.

Lemma exactly_one_concurrent_retrieval_wins_witness :
  ∃ w, (w < length Sample.requests)%nat ∧
    ∀ j request, Sample.requests !! j = Some request →
      ∃ response,
        Concurrent.threads
          (Concurrent.run Sample.name "abc" Sample.schedule
             (Concurrent.start Sample.stored Sample.requests))
        !! j = Some (Concurrent.Returned (Return response))
        ∧ if decide (j = w)
          then Reply.retrieved "abc" "s3cr3t" 1604498460 response
               ∧ ¬ Reply.is_not_found response
          else Reply.is_not_found response.
Proof.
  apply (exactly_one_concurrent_retrieval_wins Sample.name "abc" "s3cr3t"
           "1604498460" 1604498460 Sample.stored Sample.requests
           Sample.schedule).
  - reflexivity.
  - reflexivity.
  - reflexivity.
  - discriminate.
  - vm_compute. repeat constructor.
Defined.

(** C2. Round trip.  When a creation returns success with an identifier and
    an expiry, the [value] of its request is a string, and a retrieval of the
    identifier from any table that still holds the record as written (nothing
    has consumed or expired it) returns success with that identifier, that
    very string and the expiry the creation returned; the record is deleted
    by it. *)
Theorem create_then_retrieve_round_trip
    (name : string) (request request' : Request) (utcnow random_bits : Z)
    (t t' t'' : Dynamo.Table) (response : Response)
    (id : string) (expire : Z) :
  Service.create name request utcnow random_bits t = (Return response, t') →
  Reply.created id expire response →
  t'' !! id = t' !! id →
  ∃ body value response',
    json_body request = Return body
    ∧ json_subscript body "value" = Return (JStr value)
    ∧ Service.retrieve name request' id t''
      = (Return response', delete id t'')
    ∧ Reply.retrieved id value expire response'.
Proof.
  intros Hrun [Hok Hdata] Hsame.
  destruct (create_success_inv _ _ _ _ _ _ _ Hrun Hok)
    as (d & ttl & value & Hbody & Httl & Hvalue & Hge & Hid & -> & ->).
  unfold Reply.data in Hdata. simpl in Hdata. simplify_eq.
  rewrite lookup_insert_eq in Hsame.
  exists (JDict d), value. eexists. split; [done|]. split.
  { simpl. unfold subscript. by rewrite Hvalue. }
  rewrite retrieve_valid, Hsame by done.
  erewrite finish_item;
    [| done | by apply get_out_item_of; [|apply int_str]].
  split; [reflexivity|]. split; reflexivity.
Qed.

Lemma create_then_retrieve_round_trip_witness :
  ∃ body value response',
    json_body Sample.post_request = Return body
    ∧ json_subscript body "value" = Return (JStr value)
    ∧ Service.retrieve Sample.name Sample.get_request Sample.id Sample.table
      = (Return response', delete Sample.id Sample.table)
    ∧ Reply.retrieved Sample.id value 1604498460 response'.
Proof.
  apply (create_then_retrieve_round_trip Sample.name Sample.post_request
           Sample.get_request Sample.utcnow Sample.random_bits ∅
           Sample.table Sample.table Sample.created).
  - apply with_state. vm_compute. reflexivity.
  - vm_compute. split; reflexivity.
  - reflexivity.
Defined.

(** C3. Retrieval is destructive and its failure is idempotent.  A retrieval
    that returns success leaves the table without the record, deleted by the
    same backend call that read it, so that a retrieval of the same
    identifier after it returns [NotFound].  And for a well-formed identifier
    under which the table holds nothing (never created, already consumed, or
    expired and removed by the backend) a retrieval returns [NotFound] and
    leaves the table as it was, so a second one returns [NotFound] again. *)
Theorem retrieve_destructive_and_failure_idempotent
    (name : string) (request again : Request) (wrap_id : string)
    (t : Dynamo.Table) :
  (∀ response t',
     Service.retrieve name request wrap_id t = (Return response, t') →
     Reply.is_success response →
     t' = delete wrap_id t ∧ t' !! wrap_id = None ∧
     ∃ response',
       Service.retrieve name again wrap_id t' = (Return response', t')
       ∧ Reply.is_not_found response')
  ∧ (Models.re_search_non_alnum wrap_id = false →
     t !! wrap_id = None →
     ∃ response response',
       Service.retrieve name request wrap_id t = (Return response, t)
       ∧ Reply.is_not_found response
       ∧ Service.retrieve name again wrap_id t = (Return response', t)
       ∧ Reply.is_not_found response').
Proof.
  split.
  - intros response t' Hrun Hok.
    destruct (Models.re_search_non_alnum wrap_id) eqn:Hid.
    + unfold Service.retrieve in Hrun.
      rewrite get_invalid_id in Hrun by done. by not_success Hrun Hok.
    + rewrite retrieve_valid in Hrun by done. simplify_eq.
      split; [done|]. split; [apply lookup_delete_eq|].
      eexists. split; [|apply not_found_is_not_found].
      apply retrieve_absent; [done | apply lookup_delete_eq].
  - intros Hid Hnone. do 2 eexists.
    rewrite !retrieve_absent by done.
    repeat split; reflexivity.
Qed.

Lemma retrieve_destructive_and_failure_idempotent_witness :
  (∃ response response',
     Service.retrieve Sample.name Sample.get_request "abc" Sample.stored
     = (Return response, delete "abc"%string Sample.stored)
     ∧ Reply.is_success response
     ∧ delete "abc"%string Sample.stored !! "abc"%string = None
     ∧ Service.retrieve Sample.name Sample.get_request "abc"
         (delete "abc"%string Sample.stored)
       = (Return response', delete "abc"%string Sample.stored)
     ∧ Reply.is_not_found response')
  ∧ (∃ response response',
       Service.retrieve Sample.name Sample.get_request "never" ∅
       = (Return response, ∅)
       ∧ Reply.is_not_found response
       ∧ Service.retrieve Sample.name Sample.get_request "never" ∅
         = (Return response', ∅)
       ∧ Reply.is_not_found response').
Proof.
  split.
  - destruct (retrieve_destructive_and_failure_idempotent Sample.name
                Sample.get_request Sample.get_request "abc" Sample.stored)
      as [Hfirst _].
    destruct (Hfirst
                (make_response
                   (success [("id", JStr "abc"); ("expire", JInt 1604498460);
                             ("value", JStr "s3cr3t")]%string "ref-2")
                   (Some 200) (Some JSON_HEADERS))
                (delete "abc"%string Sample.stored))
      as (_ & Hgone & response' & Hagain & Hnf).
    + reflexivity.
    + reflexivity.
    + eexists _, response'.
      split; [reflexivity|].
      split; [reflexivity|]. split; [exact Hgone|].
      split; [exact Hagain | exact Hnf].
  - apply (retrieve_destructive_and_failure_idempotent Sample.name
             Sample.get_request Sample.get_request "never" ∅);
      reflexivity.
Defined.

(** Every [ttl] given as a string ends in a failure: a validation error
    when [int] refuses it or it is below 30, an internal error otherwise. *)
Lemma create_string_ttl_never_succeeds
    (name : string) (request : Request) (d : dict json) (s : string)
    (utcnow random_bits : Z) (t t' : Dynamo.Table) (response : Response) :
  json_body request = Return (JDict d) →
  dict_get d "ttl" = Some (JStr s) →
  Service.create name request utcnow random_bits t = (Return response, t') →
  ¬ Reply.is_success response.
Proof.
  intros Hbody Httl Hrun Hok.
  destruct (create_success_inv _ _ _ _ _ _ _ Hrun Hok)
    as (d' & ttl & value & Hbody' & Httl' & _).
  congruence.
Qed.

(** C4. The creation of the specification's example, with a valid [value]
    and the [ttl] of 60 seconds written as the string ["60"], does not
    succeed: [WrapperIn] accepts the string, [timedelta] then raises
    [TypeError] on it, and the caller gets the generic internal error; nothing
    is stored.  (A [ttl] below 30 is refused with a validation error that
    names [ttl], [create_ttl_below_30], and a [ttl] of at least 30 given as
    a number succeeds, [create_int_ttl_succeeds].) *)
Theorem create_string_ttl_is_internal_error
    (name request_id : string) (utcnow random_bits : Z) (t : Dynamo.Table) :
  ∃ response,
    Service.create name (Sample.post_string_ttl request_id)
      utcnow random_bits t
    = (Return response, t)
    ∧ Reply.is_internal_error response
    ∧ ¬ Reply.is_success response.
Proof.
  eexists. split; [reflexivity|]. split; [by split|].
  unfold Reply.is_success, Reply.status. simpl. congruence.
Qed.

(** C5. A GET whose identifier has a character outside [[A-Za-z0-9]]
    returns a failure whose error names the field [id], and leaves the state
    of the backend as it was, whatever the client is and does: the handler
    returns before it asks for the client. *)
Theorem invalid_id_rejected_before_store
    {St : Type} (client : result (Dynamo.Client St))
    (table_name : option string) (request : Request) (wrap_id : string)
    (st : St) :
  (∃ c, In c (list_ascii_of_string wrap_id) ∧ Py.is_alnum c = false) →
  ∃ response,
    v1_wrapper_get client table_name request wrap_id st = (Return response, st)
    ∧ Reply.names_field "id" response.
Proof.
  intros Hbad%re_search_non_alnum_true.
  eexists. split; [by apply get_invalid_id|].
  split; [done|]. eexists. split; [done|].
  eexists. split; [apply list_elem_of_here | done].
Qed.

Lemma invalid_id_rejected_before_store_witness :
  ∃ response,
    v1_wrapper_get (Return Dynamo.counting_client) (Some Sample.name)
      Sample.get_request "ab-cd" 0%nat
    = (Return response, 0%nat)
    ∧ Reply.names_field "id" response.
Proof.
  apply invalid_id_rejected_before_store.
  exists "-"%char. split; [simpl; auto | reflexivity].
Defined.



(** C7. Whatever the request, the client, the clock and the state of the
    backend, and whatever the backend calls do, each of the two handlers
    returns a response and raises nothing; the response has status code 200
    (for the catch-all of the GET handler through the default of
    [Response]), a [status] that is success or failed, and the request's
    correlation identifier as [ref]. *)
Theorem handlers_always_return_envelope
    {St : Type} (client : result (Dynamo.Client St))
    (table_name : option string) (request : Request)
    (utcnow random_bits : Z) (wrap_id : string) (st : St) :
  Reply.enveloped request
    (fst (v1_wrapper_post client table_name request utcnow random_bits st))
  ∧ Reply.enveloped request
      (fst (v1_wrapper_get client table_name request wrap_id st)).
Proof. split; [apply post_enveloped | apply get_enveloped]. Qed.

(** C8. A stored record of an unexpected shape, an item whose [ttl] is the
    number 1.5, is not reported as the generic internal error: the GET
    handler answers with pydantic's description of the failed field
    [expire], where the POST handler answers a failed validation of its own
    output with the generic message.  (A backend call that raises, and an
    item that lacks an attribute, do give the generic message:
    [get_backend_fault], [get_no_client], [get_out_key_error].) *)
Theorem retrieve_malformed_record_leaks_validation_detail
    (name request_id : string) :
  ∃ response,
    Service.retrieve name (Service.request_of request_id JNull) "abc"
      Sample.malformed
    = (Return response, delete "abc"%string Sample.malformed)
    ∧ Reply.error response
      = Some (VErrors [{| Pydantic.loc := "expire";
                          Pydantic.err := Pydantic.IntegerError |}])
    ∧ ¬ Reply.is_internal_error response.
Proof.
  eexists. split.
  - rewrite retrieve_valid by done. unfold Sample.malformed.
    rewrite lookup_singleton_eq. f_equal.
  - split; [reflexivity|]. intros [_ Herr]. discriminate Herr.
Qed.



(** The state a retrieval with a well-formed identifier leaves is the
    state its one [delete_item] call leaves. *)
Lemma get_valid_calls_delete_item {St : Type} (client : Dynamo.Client St)
    (table_name : option string) (request : Request) (wrap_id : string)
    (st : St) :
  Models.re_search_non_alnum wrap_id = false →
  snd (v1_wrapper_get (Return client) table_name request wrap_id st)
  = snd (Dynamo.delete_item client table_name
           [("id", Dynamo.ParamS (JStr wrap_id))]%string st).
Proof.
  intros Hok.
  unfold v1_wrapper_get, try_except, bind, lift, ret, raise,
    Models.WrapperId, Models.validate_id.
  rewrite Hok. simpl.
  destruct (Dynamo.delete_item _ _ _ _) as [[response|e] st']; simpl;
    [|done].
  repeat case_match; simplify_eq/=; done.
Qed.

(** C10. An identifier whose characters are all in [[a-zA-Z0-9]] passes
    the validation of [id] whatever its length, the empty string and
    strings shorter or longer than a generated identifier included.  The GET
    handler then makes its [delete_item] call with it, and when the table
    holds nothing under it the response is [NotFound], not a validation
    error. *)
Theorem alnum_id_of_any_length_reaches_store (wrap_id : string) :
  Forall (λ c, Py.is_alnum c = true) (list_ascii_of_string wrap_id) →
  Models.WrapperId wrap_id = Return {| Models.id_id := wrap_id |}
  ∧ (∀ St (client : Dynamo.Client St) table_name request st,
       snd (v1_wrapper_get (Return client) table_name request wrap_id st)
       = snd (Dynamo.delete_item client table_name
                [("id", Dynamo.ParamS (JStr wrap_id))]%string st))
  ∧ (∀ name request (t : Dynamo.Table),
       t !! wrap_id = None →
       ∃ response,
         Service.retrieve name request wrap_id t = (Return response, t)
         ∧ Reply.is_not_found response).
Proof.
  intros Hok%re_search_non_alnum_false. split; [|split].
  - unfold Models.WrapperId, Models.validate_id. by rewrite Hok.
  - intros. by apply get_valid_calls_delete_item.
  - intros name request t Hnone. eexists.
    split; [by apply retrieve_absent|]. apply not_found_is_not_found.
Qed.

Lemma alnum_id_of_any_length_reaches_store_witness :
  Models.WrapperId "" = Return {| Models.id_id := "" |}
  ∧ (∀ St (client : Dynamo.Client St) table_name request st,
       snd (v1_wrapper_get (Return client) table_name request "" st)
       = snd (Dynamo.delete_item client table_name
                [("id", Dynamo.ParamS (JStr ""))]%string st))
  ∧ (∀ name request (t : Dynamo.Table),
       t !! ""%string = None →
       ∃ response,
         Service.retrieve name request "" t = (Return response, t)
         ∧ Reply.is_not_found response).
Proof.
  apply alnum_id_of_any_length_reaches_store. simpl. constructor.
Defined.

(** Identifiers of other lengths than the generated one, asked of the table
    that holds the sample record: each gets [NotFound]. *)
Example retrieve_short_and_long_ids :
  Forall
    (λ wrap_id,
       Service.retrieve Sample.name Sample.get_request wrap_id Sample.table
       = (Return (not_found "ref-2"), Sample.table))
    [""; "a"; "80000000000040008000000000003039a"]%string.
Proof.
  repeat constructor; apply retrieve_absent; reflexivity.
Qed.

(** The example of the specification, with the [ttl] as a number: the
    creation, the retrieval, and the retrieval again. *)
Example create_sample :
  fst (Service.create Sample.name Sample.post_request Sample.utcnow
         Sample.random_bits ∅)
  = Return Sample.created.
Proof. reflexivity. Qed.

Example retrieve_sample :
  fst (Service.retrieve Sample.name Sample.get_request Sample.id Sample.table)
  = Return
      (make_response
         (success [("id", JStr Sample.id); ("expire", JInt 1604498460);
                   ("value", JStr "s3cr3t")]%string "ref-2")
         (Some 200) (Some JSON_HEADERS)).
Proof. reflexivity. Qed.

Example retrieve_sample_again :
  fst (Service.retrieve Sample.name Sample.get_request Sample.id
         (snd (Service.retrieve Sample.name Sample.get_request Sample.id
                 Sample.table)))
  = Return (not_found "ref-2").
Proof. reflexivity. Qed.

(** A backend that cannot be reached gives the generic internal error on
    both routes. *)
Example unavailable_backend :
  fst (v1_wrapper_post (Return Dynamo.unavailable_client) (Some Sample.name)
         Sample.post_request Sample.utcnow Sample.random_bits ())
  = Return (make_response (failed (VStr "internal error") "ref-1")
              (Some 200) (Some JSON_HEADERS))
  ∧ fst (v1_wrapper_get (Return Dynamo.unavailable_client) (Some Sample.name)
           Sample.get_request Sample.id ())
    = Return (make_response (failed (VStr "internal error") "ref-2")
                None None).
Proof. split; reflexivity. Qed.

(** * Further properties of the code *)

(** ** The cached client *)

Section Cache.
Context {C : Type}.

Lemma calls_length (moods : list (result C)) : ∀ g,
  length (fst (ClientCache.calls moods g)) = length moods.
Proof.
  induction moods as [|m moods IH]; intros g; [done|].
  simpl. destruct (ClientCache.get_dynamo_client m g) as [r g1].
  specialize (IH g1). destruct (ClientCache.calls moods g1). simpl in *.
  by rewrite IH.
Qed.

(** With a client in the global, every call returns it and leaves it. *)
Lemma calls_cached (moods : list (result C)) (c : C) :
  ClientCache.calls moods (Some c)
  = (fmap (λ _, Return c) moods, Some c).
Proof.
  induction moods as [|m moods IH]; [done|].
  simpl. by rewrite IH.
Qed.

(** A call raises only what [boto3.client] raised at that moment, and a
    call that returns leaves its client in the global. *)
Lemma calls_lookup (moods : list (result C)) : ∀ g i r,
  fst (ClientCache.calls moods g) !! i = Some r →
  match r with
  | Raise e => moods !! i = Some (Raise e) ∧ g = None
  | Return c =>
      ∀ j, (i ≤ j < length moods)%nat →
           fst (ClientCache.calls moods g) !! j = Some (Return c)
  end.
Proof.
  induction moods as [|m moods IH]; intros g i r Hi; [done|].
  simpl in *.
  destruct g as [c0|].
  - simpl in *. rewrite calls_cached in *. simpl in *.
    assert (Hall : ∀ k r',
      (Return c0 :: fmap (λ _, Return c0) moods) !! k = Some r'
      → r' = Return c0).
    { intros [|k] r' Hk; simpl in Hk; [congruence|].
      rewrite list_lookup_fmap in Hk.
      destruct (moods !! k); simpl in Hk; congruence. }
    rewrite (Hall _ _ Hi). intros j Hj.
    destruct ((Return c0 :: fmap (λ _, Return c0) moods) !! j) as [r'|] eqn:Hr.
    + by rewrite (Hall _ _ Hr).
    + apply lookup_ge_None in Hr. simpl in Hr. rewrite length_fmap in Hr.
      simpl in Hj. lia.
  - simpl in *. destruct m as [c|e]; simpl in *.
    + rewrite calls_cached in *. simpl in *.
      assert (Hall : ∀ k r',
        (Return c :: fmap (λ _, Return c) moods) !! k = Some r'
        → r' = Return c).
      { intros [|k] r' Hk; simpl in Hk; [congruence|].
        rewrite list_lookup_fmap in Hk.
        destruct (moods !! k); simpl in Hk; congruence. }
      rewrite (Hall _ _ Hi). intros j Hj.
      destruct ((Return c :: fmap (λ _, Return c) moods) !! j) as [r'|] eqn:Hr.
      * by rewrite (Hall _ _ Hr).
      * apply lookup_ge_None in Hr. simpl in Hr. rewrite length_fmap in Hr.
        simpl in Hj. lia.
    + specialize (IH None).
      destruct (ClientCache.calls moods None) as [rs g'] eqn:Hcalls.
      simpl in *. destruct i as [|i]; simpl in Hi.
      * simplify_eq. done.
      * specialize (IH i r Hi). destruct r as [c|e'].
        -- intros j Hj. destruct j as [|j]; [lia|]. simpl.
           apply IH. simpl in Hj. lia.
        -- done.
Qed.
End Cache.

(** X1. [get_dynamo_client] builds the client at most once.  In any
    sequence of calls there is one result per call; once a call has returned
    a client every later call returns that same client, whatever
    [boto3.client] would do then; a call raises only what [boto3.client]
    raised at that moment, and only while the global is still empty; and
    with a client already in the global (as the tests put one) every call
    returns it and leaves it there. *)
Theorem get_dynamo_client_builds_once {C : Type}
    (moods : list (result C)) (_DYNAMO : option C) :
  length (fst (ClientCache.calls moods _DYNAMO)) = length moods
  ∧ (∀ i j c,
       (i ≤ j < length moods)%nat →
       fst (ClientCache.calls moods _DYNAMO) !! i = Some (Return c) →
       fst (ClientCache.calls moods _DYNAMO) !! j = Some (Return c))
  ∧ (∀ i e,
       fst (ClientCache.calls moods _DYNAMO) !! i = Some (Raise e) →
       moods !! i = Some (Raise e) ∧ _DYNAMO = None)
  ∧ (∀ c, _DYNAMO = Some c →
       ClientCache.calls moods _DYNAMO
       = (fmap (λ _, Return c) moods, Some c)).
Proof.
  split; [apply calls_length|]. split; [|split].
  - intros i j c Hij Hi. by apply (calls_lookup moods _ i (Return c) Hi).
  - intros i e Hi. by apply (calls_lookup moods _ i (Raise e) Hi).
  - intros c ->. apply calls_cached.
Qed.

(** ** Bodies the POST handler refuses *)

Section PostEdges.
Context {St : Type}.
Variable client : result (Dynamo.Client St).
Variable table_name : option string.


End PostEdges.



(** X3. A POST whose body is no JSON object (nothing, null, a list, a
    string, a number: unpacking it raises [TypeError]) or no JSON at all
    ([json_body] raises [BadRequestError]) is answered with the generic
    internal error, not with a validation error, and the state of the
    backend is as it was, whatever the client. *)
Theorem create_without_json_object_is_internal_error
    {St : Type} (client : result (Dynamo.Client St))
    (table_name : option string) (request : Request) (e : exn)
    (utcnow random_bits : Z) (st : St) :
  json_body request >>= kwargs = Raise e →
  e = TypeError ∨ e = BadRequestError →
  ∃ response,
    v1_wrapper_post client table_name request utcnow random_bits st
    = (Return response, st)
    ∧ Reply.is_internal_error response.
Proof.
  intros Hbody He.
  unfold v1_wrapper_post, try_except, bind, lift.
  rewrite Hbody. simpl.
  destruct He as [->| ->]; (eexists; split; [reflexivity | by split]).
Qed.

Lemma create_without_json_object_is_internal_error_witness :
  ∃ response,
    v1_wrapper_post (Return Dynamo.counting_client) (Some Sample.name)
      (Service.request_of "ref-1" JNull) Sample.utcnow Sample.random_bits
      0%nat
    = (Return response, 0%nat)
    ∧ Reply.is_internal_error response.
Proof.
  apply (create_without_json_object_is_internal_error _ _ _ TypeError).
  - reflexivity.
  - left. reflexivity.
Defined.

Section Recorded.
Context {St : Type}.
Variable c : Dynamo.Client St.
Variable table_name : option string.

Lemma post_recorded request utcnow random_bits st :
  ∃ r st' log,
    v1_wrapper_post (Return (Trace.recording c)) table_name request utcnow
      random_bits (st, []) = (r, (st', log))
    ∧ ((log = [] ∧ st' = st ∧ History.succeeded r = false)
       ∨ ∃ value expire pr,
           log = [Trace.PutItem table_name
                    (Trace.sent_item (random_id random_bits) value expire)]
           ∧ Dynamo.put_item c table_name
               (Trace.sent_item (random_id random_bits) value expire) st
             = (pr, st')
           ∧ (History.succeeded r = true ↔ ∃ u, pr = Return u)).
Proof.
  unfold v1_wrapper_post, try_except, bind, lift, ret, raise.
  destruct (json_body request >>= kwargs >>= Models.WrapperIn)
    as [w|e]; simpl.
  2: { destruct e; do 3 eexists; (split; [reflexivity|]); left; done. }
  destruct (json_body request >>= (λ b, json_subscript b "ttl")
            >>= Datetime.timedelta >>= Datetime.add utcnow) as [dt|e]; simpl.
  2: { do 3 eexists. split; [reflexivity|]. by left. }
  destruct (Models.WrapperPostOut _ _) as [out|e]; simpl.
  2: { destruct e; do 3 eexists; (split; [reflexivity|]); left; done. }
  destruct (json_body request >>= (λ b, json_subscript b "value"))
    as [value|e]; simpl.
  2: { do 3 eexists. split; [reflexivity|]. by left. }
  destruct (Dynamo.put_item c table_name _ st) as [pr st'] eqn:Hput.
  destruct pr as [u|e]; simpl.
  - do 3 eexists. split; [reflexivity|]. right.
    exists value, (Datetime.strftime_s dt), (Return u).
    split; [done|]. split; [exact Hput|]. split; [by eexists | done].
  - do 3 eexists. split; [reflexivity|]. right.
    exists value, (Datetime.strftime_s dt), (Raise e).
    split; [done|]. split; [exact Hput|].
    split; [done | by intros [u ?]].
Qed.

Lemma get_recorded request wrap_id st :
  ∃ r st' log,
    v1_wrapper_get (Return (Trace.recording c)) table_name request wrap_id
      (st, []) = (r, (st', log))
    ∧ ((Models.re_search_non_alnum wrap_id = true ∧ log = [] ∧ st' = st)
       ∨ (Models.re_search_non_alnum wrap_id = false
          ∧ log = [Trace.DeleteItem table_name (Trace.sent_key wrap_id)]
          ∧ st' = snd (Dynamo.delete_item c table_name
                         (Trace.sent_key wrap_id) st))).
Proof.
  unfold v1_wrapper_get, try_except, bind, lift, ret, raise,
    Models.WrapperId, Models.validate_id.
  destruct (Models.re_search_non_alnum wrap_id); simpl.
  { do 3 eexists. split; [reflexivity|]. by left. }
  fold (Trace.sent_key wrap_id).
  destruct (Dynamo.delete_item c table_name _ st) as [dr st'] eqn:Hdel.
  destruct dr as [out|e]; simpl.
  - destruct (Dynamo.Attributes out) as [attrs|]; simpl.
    + destruct (get_out attrs) as [data|e]; simpl.
      * do 3 eexists. split; [reflexivity|]. by right.
      * destruct e; do 3 eexists; (split; [reflexivity|]); by right.
    + do 3 eexists. split; [reflexivity|]. by right.
  - do 3 eexists. split; [reflexivity|]. by right.
Qed.

End Recorded.

Section RecordedGet.
Context {St : Type}.
Variable c : Dynamo.Client St.
Variable table_name : option string.

Lemma get_recording_transparent request wrap_id st log :
  let recorded := v1_wrapper_get (Return (Trace.recording c)) table_name
                    request wrap_id (st, log) in
  let plain := v1_wrapper_get (Return c) table_name request wrap_id st in
  fst recorded = fst plain ∧ fst (snd recorded) = snd plain.
Proof.
  unfold v1_wrapper_get, try_except, bind, lift, ret, raise.
  repeat (case_match; simplify_eq/=); try done.
Qed.
End RecordedGet.


(** X5. The GET handler calls the backend at most once, and never to
    write.  With the calls written down: the response and the state are
    those without the writing down; an identifier that fails validation
    makes no call; any other makes exactly one, a [delete_item] on the
    table of [WRAPPER_TABLE_NAME] keyed on that identifier, and the state
    afterwards is the state that call leaves, whether it returns or
    raises. *)
Theorem retrieve_calls_backend_at_most_once
    {St : Type} (c : Dynamo.Client St) (table_name : option string)
    (request : Request) (wrap_id : string) (st : St) :
  ∃ r st' log,
    v1_wrapper_get (Return (Trace.recording c)) table_name request wrap_id
      (st, []) = (r, (st', log))
    ∧ v1_wrapper_get (Return c) table_name request wrap_id st = (r, st')
    ∧ ((Models.re_search_non_alnum wrap_id = true ∧ log = [] ∧ st' = st)
       ∨ (Models.re_search_non_alnum wrap_id = false
          ∧ log = [Trace.DeleteItem table_name (Trace.sent_key wrap_id)]
          ∧ st' = snd (Dynamo.delete_item c table_name
                         (Trace.sent_key wrap_id) st))).
Proof.
  destruct (get_recorded c table_name request wrap_id st)
    as (r & st' & log & Hrun & Hcases).
  exists r, st', log. split; [done|]. split; [|done].
  destruct (get_recording_transparent c table_name request wrap_id st [])
    as [Hr Hst].
  rewrite Hrun in Hr, Hst. simpl in Hr, Hst.
  destruct (v1_wrapper_get (Return c) _ _ _ _). simpl in *. congruence.
Qed.

(** X14. The stack allows what the handlers do.  With
    [WRAPPER_TABLE_NAME] as the stack sets it, every call either handler
    makes needs an action the role is granted, addresses the table the
    stack created, and sends the partition key [id] the table declares, as
    a string. *)
Theorem stack_allows_every_call_of_the_handlers
    {St : Type} (c : Dynamo.Client St) (table : string)
    (request : Request) (utcnow random_bits : Z) (wrap_id : string)
    (st : St) :
  let WRAPPER_TABLE_NAME :=
    Stack.WRAPPER_TABLE_NAME (Stack.environment_variables table) in
  let allowed (call : Trace.call) :=
    Trace.action call ∈ Stack._add_dynamo_permissions
    ∧ Trace.table_of call = Some table
    ∧ Stack.sends_partition_key call in
  Forall allowed
    (snd (snd (v1_wrapper_post (Return (Trace.recording c))
                 WRAPPER_TABLE_NAME request utcnow random_bits (st, []))))
  ∧ Forall allowed
      (snd (snd (v1_wrapper_get (Return (Trace.recording c))
                   WRAPPER_TABLE_NAME request wrap_id (st, [])))).
Proof.
  intros WRAPPER_TABLE_NAME allowed. split.
  - destruct (post_recorded c WRAPPER_TABLE_NAME request utcnow random_bits
                st) as (r & st' & log & -> & Hcases).
    simpl. destruct Hcases as [(-> & _)|(value & expire & pr & -> & _)];
      [constructor|].
    constructor; [|constructor]. split; [|split].
    + simpl. apply list_elem_of_here.
    + reflexivity.
    + eexists. split; [reflexivity|]. split; [reflexivity|].
      by eexists.
  - destruct (get_recorded c WRAPPER_TABLE_NAME request wrap_id st)
      as (r & st' & log & -> & Hcases).
    simpl. destruct Hcases as [(_ & -> & _)|(_ & -> & _)]; [constructor|].
    constructor; [|constructor]. split; [|split].
    + simpl. do 2 apply list_elem_of_further. apply list_elem_of_here.
    + reflexivity.
    + eexists. split; [reflexivity|]. split; [reflexivity|].
      by eexists.
Qed.

(** ** What the handlers do to the table *)

Section Frames.
Variable name : string.

Lemma table_put_item_cases TableName Item (t : Dynamo.Table) :
  (∃ e, Dynamo.table_put_item name TableName Item t = (Raise e, t))
  ∨ ∃ k attrs, Dynamo.table_put_item name TableName Item t
               = (Return (), <[k := list_to_map attrs]> t)
               ∧ Dynamo.check_item Item = Return attrs
               ∧ Dynamo.key_of attrs = Return k.
Proof.
  unfold Dynamo.table_put_item, result_bind.
  destruct (Dynamo.check_table name TableName) as [[]|e];
    [|left; eexists; reflexivity].
  destruct (Dynamo.check_item Item) as [attrs|e] eqn:Hitem;
    [|left; eexists; reflexivity].
  destruct (Dynamo.key_of attrs) as [k|e] eqn:Hkey;
    [|left; eexists; reflexivity].
  right. by exists k, attrs.
Qed.

(** A creation that does not answer success has stored nothing. *)
Lemma create_outcome request utcnow random_bits (t : Dynamo.Table) :
  ∃ response t',
    Service.create name request utcnow random_bits t = (Return response, t')
    ∧ (Reply.is_success response ∨ (¬ Reply.is_success response ∧ t' = t)).
Proof.
  unfold Service.create, v1_wrapper_post, try_except, bind, lift, ret, raise.
  assert (Hfail : ∀ error sc hd,
    ¬ Reply.is_success
        (make_response
           (failed error (aws_request_id (lambda_context request))) sc hd)).
  { intros error sc hd. unfold Reply.is_success, Reply.status. simpl.
    congruence. }
  destruct (json_body request >>= kwargs >>= Models.WrapperIn)
    as [w|e]; simpl.
  2: { destruct e; do 2 eexists; (split; [reflexivity|]); right;
       (split; [apply Hfail | done]). }
  destruct (json_body request >>= (λ b, json_subscript b "ttl")
            >>= Datetime.timedelta >>= Datetime.add utcnow) as [dt|e]; simpl.
  2: { do 2 eexists. split; [reflexivity|]. right. by split; [apply Hfail|]. }
  destruct (Models.WrapperPostOut _ _) as [out|e]; simpl.
  2: { destruct e; do 2 eexists; (split; [reflexivity|]); right;
       (split; [apply Hfail | done]). }
  destruct (json_body request >>= (λ b, json_subscript b "value"))
    as [value|e]; simpl.
  2: { do 2 eexists. split; [reflexivity|]. right. by split; [apply Hfail|]. }
  destruct (table_put_item_cases (Some name)
              [("id", Dynamo.ParamS (JStr (random_id random_bits)));
               ("value", Dynamo.ParamS value);
               ("ttl", Dynamo.ParamN (JStr (Datetime.strftime_s dt)))]%string t)
    as [[e ->]|(k & attrs & -> & _)]; simpl.
  - do 2 eexists. split; [reflexivity|]. right. by split; [apply Hfail|].
  - do 2 eexists. split; [reflexivity|]. by left.
Qed.

(** What a creation leaves in the table. *)
Lemma create_table request utcnow random_bits (t : Dynamo.Table) :
  snd (Service.create name request utcnow random_bits t) = t
  ∨ (Models.re_search_non_alnum (random_id random_bits) = false ∧
     ∃ value ttl,
       snd (Service.create name request utcnow random_bits t)
       = <[random_id random_bits :=
             Service.item_of (random_id random_bits) value
               (Py.str (utcnow + ttl))]> t).
Proof.
  destruct (create_outcome request utcnow random_bits t)
    as (response & t' & Hrun & [Hok|[_ ->]]).
  - destruct (create_success_inv _ _ _ _ _ _ _ Hrun Hok)
      as (d & ttl & value & _ & _ & _ & _ & Hid & _ & ->).
    right. split; [done|]. exists value, ttl. by rewrite Hrun.
  - left. by rewrite Hrun.
Qed.

Lemma retrieve_table request wrap_id (t : Dynamo.Table) :
  snd (Service.retrieve name request wrap_id t) = t
  ∨ (Models.re_search_non_alnum wrap_id = false
     ∧ snd (Service.retrieve name request wrap_id t) = delete wrap_id t).
Proof.
  destruct (Models.re_search_non_alnum wrap_id) eqn:Hid.
  - left. unfold Service.retrieve. by rewrite get_invalid_id.
  - right. split; [done|]. by rewrite retrieve_valid.
Qed.
End Frames.

(** X6. Each request touches one key of the table at most.  A creation
    leaves every item but the one under the identifier it draws as it was; a
    retrieval leaves every item but the one under the requested identifier
    as it was; and a retrieval adds nothing: each key is empty afterwards or
    holds what it held. *)
Theorem handlers_touch_one_key (name : string) (request : Request)
    (utcnow random_bits : Z) (wrap_id : string) (t : Dynamo.Table) :
  (∀ k, k ≠ random_id random_bits →
        snd (Service.create name request utcnow random_bits t) !! k = t !! k)
  ∧ (∀ k, k ≠ wrap_id →
          snd (Service.retrieve name request wrap_id t) !! k = t !! k)
  ∧ (∀ k, snd (Service.retrieve name request wrap_id t) !! k = None
          ∨ snd (Service.retrieve name request wrap_id t) !! k = t !! k).
Proof.
  split; [|split].
  - intros k Hk.
    destruct (create_table name request utcnow random_bits t)
      as [->|(_ & value & ttl & ->)]; [done|].
    by rewrite lookup_insert_ne.
  - intros k Hk.
    destruct (retrieve_table name request wrap_id t) as [->|[_ ->]]; [done|].
    by rewrite lookup_delete_ne.
  - intros k.
    destruct (retrieve_table name request wrap_id t) as [->|[_ ->]];
      [by right|].
    destruct (decide (wrap_id = k)) as [->|Hne].
    + left. apply lookup_delete_eq.
    + right. by rewrite lookup_delete_ne.
Qed.

(** X7. A creation either answers success and has written one item,
    under the identifier it drew, or answers failed and has left the table
    as it was: no failure leaves a record behind. *)
Theorem failed_create_stores_nothing (name : string) (request : Request)
    (utcnow random_bits : Z) (t : Dynamo.Table) :
  ∃ response t',
    Service.create name request utcnow random_bits t = (Return response, t')
    ∧ (Reply.is_success response ∨ Reply.is_failed response)
    ∧ (Reply.is_failed response → t' = t)
    ∧ (Reply.is_success response →
       ∃ item, t' = <[random_id random_bits := item]> t).
Proof.
  destruct (create_outcome name request utcnow random_bits t)
    as (response & t' & Hrun & Hcases).
  exists response, t'. split; [done|].
  pose proof (post_enveloped (Return (Dynamo.table_client name)) (Some name)
                request utcnow random_bits t) as (r & Hr & _ & Hstatus & _).
  unfold Service.create in Hrun. rewrite Hrun in Hr. simpl in Hr.
  simplify_eq. split; [done|]. split.
  - intros Hfailed. destruct Hcases as [Hok|[_ ->]]; [|done].
    unfold Reply.is_success, Reply.is_failed in *. congruence.
  - intros Hok.
    destruct (create_success_inv name _ _ _ _ _ _ Hrun Hok)
      as (d & ttl & value & _ & _ & _ & _ & _ & _ & ->).
    by eexists.
Qed.

(** ** Histories *)

Section Invariant.
Import History.
Variable name : string.

Lemma well_formed_empty : well_formed ∅.
Proof. intros k item Hk. by rewrite lookup_empty in Hk. Qed.

Lemma create_well_formed request utcnow random_bits (t : Dynamo.Table) :
  well_formed t →
  well_formed (snd (Service.create name request utcnow random_bits t)).
Proof.
  intros Hwf.
  destruct (create_table name request utcnow random_bits t)
    as [->|(Hid & value & ttl & ->)]; [done|].
  intros k item Hk. destruct (decide (random_id random_bits = k)) as [<-|Hne].
  - rewrite lookup_insert_eq in Hk. simplify_eq. split; [done|].
    exists value, (Py.str (utcnow + ttl)), (utcnow + ttl).
    split; [done | apply int_str].
  - rewrite lookup_insert_ne in Hk by done. by apply Hwf.
Qed.

Lemma retrieve_well_formed request wrap_id (t : Dynamo.Table) :
  well_formed t →
  well_formed (snd (Service.retrieve name request wrap_id t)).
Proof.
  intros Hwf.
  destruct (retrieve_table name request wrap_id t) as [->|[_ ->]]; [done|].
  intros k item Hk. destruct (decide (wrap_id = k)) as [<-|Hne].
  - by rewrite lookup_delete_eq in Hk.
  - rewrite lookup_delete_ne in Hk by done. by apply Hwf.
Qed.

Lemma apply_well_formed o (t : Dynamo.Table) :
  well_formed t → well_formed (snd (apply name o t)).
Proof.
  destruct o; [apply create_well_formed | apply retrieve_well_formed].
Qed.

(** On a table of well-formed items a retrieval has three outcomes. *)
Lemma retrieve_well_formed_outcome request wrap_id (t : Dynamo.Table) :
  well_formed t →
  ∃ response,
    fst (Service.retrieve name request wrap_id t) = Return response
    ∧ (Reply.names_field "id" response
       ∨ Reply.is_not_found response
       ∨ ∃ value n, Reply.retrieved wrap_id value n response).
Proof.
  intros Hwf. destruct (Models.re_search_non_alnum wrap_id) eqn:Hid.
  - unfold Service.retrieve. rewrite get_invalid_id by done.
    eexists. split; [reflexivity|]. left.
    split; [done|]. eexists. split; [reflexivity|].
    eexists. split; [apply list_elem_of_here | done].
  - rewrite retrieve_valid by done. simpl.
    destruct (t !! wrap_id) as [item|] eqn:Hitem.
    + destruct (Hwf _ _ Hitem) as (_ & value & expire & n & -> & Hn).
      erewrite finish_item; [|done|by apply get_out_item_of].
      eexists. split; [reflexivity|]. right. right.
      exists value, n. by split.
    + rewrite finish_none by done.
      eexists. split; [reflexivity|]. right. left.
      apply not_found_is_not_found.
Qed.

Lemma run_invariant_wf ops : ∀ (t : Dynamo.Table),
  well_formed t →
  well_formed (snd (run name ops t))
  ∧ ∀ request wrap_id r,
      (Retrieve request wrap_id, r) ∈ fst (run name ops t) →
      ∃ response,
        r = Return response
        ∧ (Reply.names_field "id" response
           ∨ Reply.is_not_found response
           ∨ ∃ value n, Reply.retrieved wrap_id value n response).
Proof.
  induction ops as [|o ops IH]; intros t Hwf; simpl.
  - split; [done|]. intros ? ? ? H. by apply elem_of_nil in H.
  - pose proof (apply_well_formed o t Hwf) as Hwf'.
    destruct (apply name o t) as [r1 t1] eqn:Happly. simpl in Hwf'.
    destruct (IH t1 Hwf') as [Hend Hevents].
    destruct (run name ops t1) as [events t2]. simpl in *.
    split; [done|]. intros request wrap_id r Hin.
    apply elem_of_cons in Hin as [Heq|Hin]; [|by eapply Hevents].
    simplify_eq. simpl in Happly.
    destruct (retrieve_well_formed_outcome request wrap_id t Hwf)
      as (response & Hr & Hcases).
    rewrite Happly in Hr. simpl in Hr. by exists response.
Qed.
End Invariant.

(** X8. Whatever sequence of creations and retrievals the service
    serves, starting from the empty table, every item in the table is as
    [create] writes them (a well-formed identifier as key and [id], a string
    [value], an integer [ttl]), and every retrieval in the sequence was
    answered in one of three ways: a validation error naming [id],
    [NotFound], or success with the requested identifier; never with the
    internal error, and never with the validation detail of a stored
    record. *)
Theorem service_history_keeps_items_well_formed
    (name : string) (ops : list History.op) :
  History.well_formed (snd (History.run name ops ∅))
  ∧ ∀ request wrap_id r,
      (History.Retrieve request wrap_id, r) ∈ fst (History.run name ops ∅) →
      ∃ response,
        r = Return response
        ∧ (Reply.names_field "id" response
           ∨ Reply.is_not_found response
           ∨ ∃ value n, Reply.retrieved wrap_id value n response).
Proof. apply run_invariant_wf, well_formed_empty. Qed.

Section Delivery.
Import History.
Variable name : string.

Lemma succeeded_is_success response :
  succeeded (Return response) = true ↔ Reply.is_success response.
Proof.
  unfold succeeded, Reply.is_success, Reply.status.
  destruct (dict_get (body response) "status") as [[s| |]|]; try done.
  rewrite String.eqb_eq. split; [by intros -> | by intros [= ->]].
Qed.

Lemma tally_cons {A} (f : A → bool) x l :
  tally f (x :: l) = ((if f x then 1 else 0) + tally f l)%nat.
Proof. unfold tally. simpl. by destruct (f x). Qed.

Lemma present_insert id k item (t : Dynamo.Table) :
  present id (<[k := item]> t)
  = if String.eqb k id then 1%nat else present id t.
Proof.
  unfold present. destruct (String.eqb_spec k id) as [->|Hne].
  - by rewrite lookup_insert_eq.
  - by rewrite lookup_insert_ne.
Qed.

Lemma present_delete id k (t : Dynamo.Table) :
  present id (delete k t)
  = if String.eqb k id then 0%nat else present id t.
Proof.
  unfold present. destruct (String.eqb_spec k id) as [->|Hne].
  - by rewrite lookup_delete_eq.
  - by rewrite lookup_delete_ne.
Qed.

(** One request: what is delivered was there, what is given out is there
    afterwards. *)
Lemma apply_balance id o (t : Dynamo.Table) :
  ((if delivered id (o, fst (apply name o t)) then 1 else 0)
   + present id (snd (apply name o t))
   ≤ (if gave id (o, fst (apply name o t)) then 1 else 0)
     + present id t)%nat.
Proof.
  destruct o as [request utcnow random_bits|request wrap_id];
    cbn [apply delivered gave].
  - destruct (create_outcome name request utcnow random_bits t)
      as (response & t' & Hrun & Hcases).
    rewrite Hrun. cbn [fst snd]. destruct Hcases as [Hok|[Hno ->]].
    + destruct (create_success_inv _ _ _ _ _ _ _ Hrun Hok)
        as (d & ttl & value & _ & _ & _ & _ & _ & _ & ->).
      apply succeeded_is_success in Hok. rewrite Hok. cbn [andb].
      rewrite present_insert.
      destruct (String.eqb (random_id random_bits) id); lia.
    + destruct (succeeded (Return response)) eqn:Hs.
      * by apply succeeded_is_success in Hs.
      * cbn [andb]. lia.
  - destruct (Models.re_search_non_alnum wrap_id) eqn:Hid.
    + unfold Service.retrieve. rewrite get_invalid_id by done.
      cbn [fst snd]. replace (succeeded _) with false by done.
      cbn [andb]. lia.
    + rewrite retrieve_valid by done. cbn [fst snd].
      rewrite present_delete.
      destruct (String.eqb_spec wrap_id id) as [->|Hne];
        [|rewrite andb_false_r; lia].
      rewrite andb_true_r. unfold present.
      destruct (t !! id) as [item|]; [destruct (succeeded _); lia|].
      rewrite finish_none by done.
      replace (succeeded _) with false by done. lia.
Qed.

Lemma run_balance id ops : ∀ (t : Dynamo.Table),
  (tally (delivered id) (fst (run name ops t))
   + present id (snd (run name ops t))
   ≤ tally (gave id) (fst (run name ops t)) + present id t)%nat.
Proof.
  induction ops as [|o ops IH]; intros t; cbn [run].
  { unfold tally. simpl. lia. }
  pose proof (apply_balance id o t) as Hstep.
  destruct (apply name o t) as [r t1]. specialize (IH t1).
  destruct (run name ops t1) as [events t2]. cbn [fst snd] in *.
  rewrite !tally_cons. lia.
Qed.
End Delivery.

(** X9. Whatever sequence of creations and retrievals the service
    serves, starting from the empty table, and for every identifier: the
    successful retrievals of the identifier, plus one if the table still
    holds an item under it, are at most as many as the successful creations
    that gave the identifier out.  A secret is never delivered more often
    than it was stored, and the table holds nothing that no creation
    wrote. *)
Theorem secret_delivered_at_most_once_per_creation
    (name : string) (ops : list History.op) (id : string) :
  (History.tally (History.delivered id) (fst (History.run name ops ∅))
   + History.present id (snd (History.run name ops ∅))
   ≤ History.tally (History.gave id) (fst (History.run name ops ∅)))%nat.
Proof.
  pose proof (run_balance name id ops ∅) as H.
  unfold History.present at 2 in H. rewrite lookup_empty in H. lia.
Qed.





(** ** The identifier and the random bits *)

Section Hex.

Lemma hex_value_char v : 0 ≤ v < 16 → hex_value (Py.digit_char v) = v.
Proof.
  intros Hv. apply below_cases in Hv as (k & Hk & ->). simpl in Hk.
  do 16 (destruct k as [|k]; [by vm_compute|]). lia.
Qed.

Lemma hex_number_app ds1 ds2 acc :
  hex_number (ds1 ++ ds2) acc = hex_number ds2 (hex_number ds1 acc).
Proof. apply fold_left_app. Qed.

(** [digits_onto] in base 16 writes digits that read back as the number. *)
Lemma digits_onto_hex fuel : ∀ n acc,
  (0 < fuel)%nat → 0 ≤ n < 2 ^ Z.of_nat fuel →
  ∃ ds, Py.digits_onto 16 fuel n acc = ds ++ acc ∧ hex_number ds 0 = n.
Proof.
  induction fuel as [|fuel IH]; intros n acc Hfuel Hn; [lia|].
  simpl.
  assert (Hpow : 2 ^ Z.of_nat (S fuel) = 2 * 2 ^ Z.of_nat fuel).
  { rewrite Nat2Z.inj_succ, Z.pow_succ_r; lia. }
  destruct (Z.ltb_spec n 16) as [Hlt|Hge].
  - exists [Py.digit_char (n mod 16)]. rewrite Z.mod_small by lia.
    split; [done|]. unfold hex_number. simpl.
    rewrite hex_value_char; lia.
  - assert (Hq : 0 ≤ n / 16 < 2 ^ Z.of_nat fuel).
    { split; [apply Z.div_pos; lia|].
      apply Z.div_lt_upper_bound; [lia|]. nia. }
    assert (Hfuel' : (0 < fuel)%nat).
    { destruct fuel; [simpl in Hn; lia | lia]. }
    destruct (IH (n / 16) (Py.digit_char (n mod 16) :: acc) Hfuel' Hq)
      as (ds & -> & Hval).
    exists (ds ++ [Py.digit_char (n mod 16)]).
    rewrite <- app_assoc. split; [done|].
    rewrite hex_number_app, Hval. unfold hex_number. simpl.
    pose proof (Z.mod_pos_bound n 16 ltac:(lia)).
    rewrite hex_value_char by lia.
    rewrite (Z.div_mod n 16) at 3 by lia. lia.
Qed.

Lemma hex_number_zeros k : hex_number (repeat "0"%char k) 0 = 0.
Proof.
  induction k as [|k IH]; [done|].
  change (repeat "0"%char (S k)) with (["0"%char] ++ repeat "0"%char k).
  rewrite hex_number_app. exact IH.
Qed.

(** ['%032x'] loses nothing: the digits read back as the number. *)
Lemma hex_number_format_032x n :
  0 ≤ n → hex_number (Py.format_032x n) 0 = n.
Proof.
  intros Hn. unfold Py.format_032x, Py.digits.
  destruct (digits_onto_hex (S (Z.to_nat (Z.log2 n))) n []) as (ds & -> & Hds).
  - lia.
  - split; [done|].
    rewrite Nat2Z.inj_succ, Z2Nat.id by apply Z.log2_nonneg.
    destruct (Z.eq_dec n 0) as [->|]; [done|].
    apply Z.log2_spec. lia.
  - rewrite app_nil_r, hex_number_app, hex_number_zeros. exact Hds.
Qed.

(** What [uuid4] keeps of the random bits, and what it puts in. *)
Lemma uuid4_bits r :
  Uuid.uuid4 r
  = Z.lor (Z.ldiff r uuid4_fixed_bits)
      (Z.lor (Z.shiftl 0x8000 48) (Z.shiftl 4 76)).
Proof.
  unfold Uuid.uuid4, uuid4_fixed_bits. apply Z.bits_inj'. intros k Hk.
  repeat rewrite ?Z.lor_spec, ?Z.ldiff_spec.
  assert (Hdisjoint : Z.testbit (Z.shiftl 0x8000 48) k
                      && Z.testbit (Z.shiftl 0xf000 64) k = false).
  { rewrite <- Z.land_spec. change (Z.testbit 0 k = false).
    apply Z.bits_0. }
  revert Hdisjoint.
  destruct (Z.testbit r k), (Z.testbit (Z.shiftl 0xc000 48) k),
    (Z.testbit (Z.shiftl 0x8000 48) k), (Z.testbit (Z.shiftl 0xf000 64) k),
    (Z.testbit (Z.shiftl 4 76) k); simpl; congruence.
Qed.

Lemma ldiff_uuid4 r :
  Z.ldiff (Uuid.uuid4 r) uuid4_fixed_bits = Z.ldiff r uuid4_fixed_bits.
Proof.
  rewrite uuid4_bits. apply Z.bits_inj'. intros k Hk.
  repeat rewrite ?Z.lor_spec, ?Z.ldiff_spec.
  assert (Hin : Z.testbit (Z.lor (Z.shiftl 0x8000 48) (Z.shiftl 4 76)) k
                && negb (Z.testbit uuid4_fixed_bits k) = false).
  { rewrite <- Z.ldiff_spec. change (Z.testbit 0 k = false).
    apply Z.bits_0. }
  rewrite Z.lor_spec in Hin. revert Hin.
  destruct (Z.testbit r k), (Z.testbit uuid4_fixed_bits k),
    (Z.testbit (Z.shiftl 0x8000 48) k), (Z.testbit (Z.shiftl 4 76) k);
    simpl; congruence.
Qed.
End Hex.

(** X12. The identifier tells the bits that [uuid4] keeps, and those
    only: two draws of the random source give the same identifier exactly
    when they agree on every bit but the six that [uuid4] overwrites with
    the variant and the version (bits 62, 63 and 76 to 79). *)
Theorem random_id_tells_the_kept_bits (r1 r2 : Z) :
  0 ≤ r1 < 2 ^ 128 → 0 ≤ r2 < 2 ^ 128 →
  (random_id r1 = random_id r2 ↔
   Z.ldiff r1 uuid4_fixed_bits = Z.ldiff r2 uuid4_fixed_bits).
Proof.
  intros H1 H2. split.
  - intros Heq. rewrite (random_id_hex r1 H1), (random_id_hex r2 H2) in Heq.
    apply (f_equal list_ascii_of_string) in Heq.
    rewrite !list_ascii_of_string_of_list_ascii in Heq.
    apply (f_equal (λ ds, hex_number ds 0)) in Heq.
    rewrite !hex_number_format_032x in Heq
      by (apply uuid4_range; assumption).
    rewrite <- (ldiff_uuid4 r1), <- (ldiff_uuid4 r2). by rewrite Heq.
  - intros Heq. rewrite (random_id_hex r1 H1), (random_id_hex r2 H2).
    by rewrite (uuid4_bits r1), (uuid4_bits r2), Heq.
Qed.

Lemma random_id_tells_the_kept_bits_witness :
  random_id Sample.random_bits = random_id (Sample.random_bits + 2 ^ 62) ↔
  Z.ldiff Sample.random_bits uuid4_fixed_bits
  = Z.ldiff (Sample.random_bits + 2 ^ 62) uuid4_fixed_bits.
Proof.
  apply random_id_tells_the_kept_bits;
    vm_compute; (split; [discriminate | reflexivity]).
Defined.

(** ** The range of a creation *)

Section Range.
Variable name : string.

End Range.



(** ** Faults and headers *)

Section PutFault.
Context {St : Type}.
Variable table_name : option string.

End PutFault.



(** X16. Every response of the POST handler carries the JSON content
    type header.  A response of the GET handler carries it unless it is the
    internal error of the catch-all, which is built without headers. *)
Theorem responses_carry_json_headers_but_one
    {St : Type} (client : result (Dynamo.Client St))
    (table_name : option string) (request : Request)
    (utcnow random_bits : Z) (wrap_id : string) (st : St) :
  (∃ response,
     fst (v1_wrapper_post client table_name request utcnow random_bits st)
     = Return response
     ∧ headers response = JSON_HEADERS)
  ∧ (∃ response,
       fst (v1_wrapper_get client table_name request wrap_id st)
       = Return response
       ∧ ((Reply.is_internal_error response ∧ headers response = [])
          ∨ (¬ Reply.is_internal_error response
             ∧ headers response = JSON_HEADERS))).
Proof.
  split.
  - unfold v1_wrapper_post, try_except, bind, lift, ret, raise.
    repeat case_match; simplify_eq/=; by eexists.
  - unfold v1_wrapper_get, try_except, bind, lift, ret, raise, not_found.
    assert (Hleft : ∀ rid, ∃ response,
      Return (make_response (failed (VStr "internal error") rid) None None)
      = Return response
      ∧ ((Reply.is_internal_error response ∧ headers response = [])
         ∨ (¬ Reply.is_internal_error response
            ∧ headers response = JSON_HEADERS))).
    { intros rid. eexists. split; [reflexivity|]. left. by split. }
    assert (Hright : ∀ body,
      dict_get body "error" ≠ Some (VStr "internal error") →
      ∃ response,
        Return (make_response body (Some 200) (Some JSON_HEADERS))
        = Return response
        ∧ ((Reply.is_internal_error response ∧ headers response = [])
           ∨ (¬ Reply.is_internal_error response
              ∧ headers response = JSON_HEADERS))).
    { intros body Hbody. eexists. split; [reflexivity|]. right.
      split; [|done]. by intros [_ Herr]. }
    repeat case_match; simplify_eq/=;
      first [ apply Hleft
            | apply Hright; unfold validation_jsonify; simpl; congruence ].
Qed.
